(** * Real-time stock dashboard: indicator arithmetic and data normalisation

    A shallow embedding of [dashboard.py]: the fetch/normalise routine
    [get_stock_data], the indicators [calculate_sma] and [calculate_rsi], and
    the top-level script that derives the headline metrics.

    Numbers.  The program computes on IEEE-754 doubles through pandas.  A cell
    is modelled by [fval]: a finite value carried as an exact rational, the two
    infinities, and not-a-number (which pandas also uses for "missing").  The
    special values follow the IEEE rules; finite arithmetic is exact, so
    rounding, overflow and the sign of zero are outside the model.  Equality of
    cells is [same_value] (rationals up to [Qeq]). *)

From Stdlib Require Import String Ascii List ZArith QArith Qabs Lia Lqa Bool Arith.
From Stdlib Require Import Sorting.Sorted Sorting.Permutation Setoid Morphisms.
Import ListNotations.

Local Open Scope Q_scope.

(** ** Cells *)

Inductive fval : Type :=
| Fin (q : Q)
| PInf
| NInf
| NaN.

Definition same_value (a b : fval) : Prop :=
  match a, b with
  | Fin x, Fin y => x == y
  | PInf, PInf | NInf, NInf | NaN, NaN => True
  | _, _ => False
  end.

Definition same_valueb (a b : fval) : bool :=
  match a, b with
  | Fin x, Fin y => Qeq_bool x y
  | PInf, PInf | NInf, NInf | NaN, NaN => true
  | _, _ => false
  end.

Definition Qlt_bool (a b : Q) : bool := negb (Qle_bool b a).

Definition is_nan (a : fval) : bool :=
  match a with NaN => true | _ => false end.

Definition fneg (a : fval) : fval :=
  match a with
  | Fin x => Fin (- x)
  | PInf => NInf
  | NInf => PInf
  | NaN => NaN
  end.

Definition fadd (a b : fval) : fval :=
  match a, b with
  | NaN, _ | _, NaN => NaN
  | Fin x, Fin y => Fin (x + y)
  | PInf, NInf | NInf, PInf => NaN
  | PInf, _ | _, PInf => PInf
  | NInf, _ | _, NInf => NInf
  end.

Definition fsub (a b : fval) : fval := fadd a (fneg b).

(** Sign of a finite value: [Gt] positive, [Eq] zero, [Lt] negative. *)
Definition Qsign (x : Q) : comparison := Qcompare x 0.

Definition fmul (a b : fval) : fval :=
  match a, b with
  | NaN, _ | _, NaN => NaN
  | Fin x, Fin y => Fin (x * y)
  | Fin x, PInf | PInf, Fin x =>
      match Qsign x with Gt => PInf | Lt => NInf | Eq => NaN end
  | Fin x, NInf | NInf, Fin x =>
      match Qsign x with Gt => NInf | Lt => PInf | Eq => NaN end
  | PInf, PInf | NInf, NInf => PInf
  | PInf, NInf | NInf, PInf => NInf
  end.

(** Division never raises on doubles: a zero divisor gives an infinity of the
    dividend's sign, or not-a-number for [0/0]. *)
Definition fdiv (a b : fval) : fval :=
  match a, b with
  | NaN, _ | _, NaN => NaN
  | Fin x, Fin y =>
      if Qeq_bool y 0
      then match Qsign x with Gt => PInf | Lt => NInf | Eq => NaN end
      else Fin (x / y)
  | Fin _, PInf | Fin _, NInf => Fin 0
  | PInf, Fin y => if Qlt_bool y 0 then NInf else PInf
  | NInf, Fin y => if Qlt_bool y 0 then PInf else NInf
  | _, _ => NaN
  end.

(** Comparisons with a not-a-number operand are false. *)
Definition fgt (a b : fval) : bool :=
  match a, b with
  | Fin x, Fin y => Qlt_bool y x
  | PInf, Fin _ | PInf, NInf | Fin _, NInf => true
  | _, _ => false
  end.

Definition flt (a b : fval) : bool := fgt b a.

Definition Qofnat (n : nat) : Q := inject_Z (Z.of_nat n).

(** ** Series operations (pandas) *)

(** [Series.diff()]: each element minus its predecessor; the first element has
    no predecessor, the shifted-in value is missing and so is the result. *)
Fixpoint diff_from (prev : fval) (xs : list fval) : list fval :=
  match xs with
  | [] => []
  | x :: rest => fsub x prev :: diff_from x rest
  end.

Definition diff (xs : list fval) : list fval := diff_from NaN xs.

(** [s.where(cond, other)]: keep the entry where [cond] holds, else [other]. *)
Definition where_ (cond : fval -> bool) (other : fval) (xs : list fval) : list fval :=
  map (fun x => if cond x then x else other) xs.

(** Rolling mean over a fixed window, the way pandas computes it: a running
    sum and a count of observations, updated by adding the entering value and
    removing the leaving one; missing values are not observations.  The
    default [min_periods] is the window.  The compensated summation and the
    sign corrections of the library only act on rounding errors and have no
    counterpart in exact arithmetic. *)
Record mean_state : Type := MeanState { sum_x : fval; nobs : nat }.

Definition add_mean (v : fval) (st : mean_state) : mean_state :=
  if is_nan v then st
  else {| sum_x := fadd (sum_x st) v; nobs := S (nobs st) |}.

Definition remove_mean (v : fval) (st : mean_state) : mean_state :=
  if is_nan v then st
  else {| sum_x := fsub (sum_x st) v; nobs := pred (nobs st) |}.

Definition calc_mean (minp : nat) (st : mean_state) : fval :=
  if (minp <=? nobs st)%nat && (0 <? nobs st)%nat
  then fdiv (sum_x st) (Fin (Qofnat (nobs st)))
  else NaN.

Fixpoint roll_mean_loop (values : list fval) (w i : nat) (st : mean_state)
         (todo : list fval) : list fval :=
  match todo with
  | [] => []
  | v :: rest =>
      let st1 := if (w <=? i)%nat
                 then remove_mean (nth (i - w) values NaN) st else st in
      let st2 := add_mean v st1 in
      calc_mean w st2 :: roll_mean_loop values w (S i) st2 rest
  end.

(** An empty window never holds an observation. *)
Definition rolling_mean (window : nat) (values : list fval) : list fval :=
  match window with
  | O => map (fun _ => NaN) values
  | S _ => roll_mean_loop values window 0 {| sum_x := Fin 0; nobs := 0 |} values
  end.

(** [Series.max()] and [Series.min()] skip missing values; with no observation
    the result is missing. *)
Definition series_max (xs : list fval) : fval :=
  fold_left (fun acc x =>
               if is_nan x then acc
               else if is_nan acc then x
               else if fgt x acc then x else acc) xs NaN.

Definition series_min (xs : list fval) : fval :=
  fold_left (fun acc x =>
               if is_nan x then acc
               else if is_nan acc then x
               else if flt x acc then x else acc) xs NaN.

(** ** Exceptions and the Streamlit page *)

Inductive exn : Type :=
| RequestException (text : string)
| ValueError
| TypeError
| KeyError
| IndexError
| AttributeError
| StopException.

Inductive outcome (A : Type) : Type :=
| Ret (a : A)
| Raise (e : exn).
Arguments Ret {A} a.
Arguments Raise {A} e.

(** One plotted line: its name and its y values. *)
Inductive trace : Type :=
| Candlestick (o h l c : list fval)
| Scatter (name : string) (y : list fval)
| ScatterSMA (window : nat) (y : list fval).

(** What the script puts on the page, in order: messages, metrics, charts and
    the table.  The title, the sidebar widgets and the layout calls are not
    recorded.  Numbers are recorded before their two-decimal display
    formatting. *)
Inductive st_event : Type :=
| StError (msg : string)
| StWarning (msg : string)
| StInfo (msg : string)
| StMetric (label : string) (value : fval) (delta : option (fval * fval))
| StPlotly (title : string) (traces : list trace)
| StDataframe (index : list Z) (cols : list (string * list fval)).

(** A computation emits page events and returns or raises. *)
Definition M (A : Type) : Type := list st_event -> outcome A * list st_event.

Definition ret {A} (a : A) : M A := fun log => (Ret a, log).
Definition raise {A} (e : exn) : M A := fun log => (Raise e, log).
Definition emit (ev : st_event) : M unit := fun log => (Ret tt, log ++ [ev]).
Definition bind {A B} (m : M A) (k : A -> M B) : M B :=
  fun log => match m log with
             | (Ret a, log') => k a log'
             | (Raise e, log') => (Raise e, log')
             end.
Definition lift {A} (o : outcome A) : M A := fun log => (o, log).

(** [try: body except RequestException as e: handler e] *)
Definition try_request {A} (body : M A) (handler : string -> M A) : M A :=
  fun log => match body log with
             | (Raise (RequestException e), log') => handler e log'
             | r => r
             end.

Declare Scope monad_scope.
Delimit Scope monad_scope with monad.
Notation "x <- m ;; k" := (bind m (fun x => k))
  (at level 61, m at next level, right associativity) : monad_scope.
Notation "m ;;; k" := (bind m (fun _ => k))
  (at level 61, right associativity) : monad_scope.

Definition obind {A B} (o : outcome A) (k : A -> outcome B) : outcome B :=
  match o with Ret a => k a | Raise e => Raise e end.

Fixpoint mapM {A B} (f : A -> outcome B) (l : list A) : outcome (list B) :=
  match l with
  | [] => Ret []
  | x :: r => obind (f x) (fun y => obind (mapM f r) (fun ys => Ret (y :: ys)))
  end.

(** ** Dictionaries and frames *)

(** A Python [dict] with string keys, in insertion order. *)
Definition pydict (V : Type) : Type := list (string * V).

Fixpoint dict_get {V} (k : string) (d : pydict V) : option V :=
  match d with
  | [] => None
  | (k', v) :: r => if String.eqb k k' then Some v else dict_get k r
  end.

Definition dict_mem {V} (k : string) (d : pydict V) : bool :=
  match dict_get k d with Some _ => true | None => false end.

(** A frame, column by column: the row labels and, for each column, its name
    and one cell per row. *)
Record Frame (I C : Type) : Type :=
  MkFrame { index : list I; cols : list (string * list C) }.
Arguments MkFrame {I C} index cols.
Arguments index {I C} f.
Arguments cols {I C} f.

Definition columns {I C} (df : Frame I C) : list string := map fst (cols df).

(** [pd.DataFrame()] *)
Definition empty_frame {I C} : Frame I C := MkFrame [] [].

(** [df.empty]: some axis has length zero. *)
Definition empty {I C} (df : Frame I C) : bool :=
  match index df, cols df with
  | [], _ | _, [] => true
  | _, _ => false
  end.

Definition count_name (c : string) (names : list string) : nat :=
  length (filter (String.eqb c) names).

(** [df[c]] for a column label present once. *)
Definition getitem {I C} (df : Frame I C) (c : string) : outcome (list C) :=
  match dict_get c (cols df) with
  | Some v => Ret v
  | None => Raise KeyError
  end.

(** [df[c] = v]: replaces the column of that name, or appends a new one. *)
Fixpoint set_col {C} (c : string) (v : list C) (l : list (string * list C))
  : list (string * list C) :=
  match l with
  | [] => [(c, v)]
  | (c', v') :: r => if String.eqb c c' then (c', v) :: r
                     else (c', v') :: set_col c v r
  end.

Definition setitem {I C} (df : Frame I C) (c : string) (v : list C) : Frame I C :=
  MkFrame (index df) (set_col c v (cols df)).

(** The frame after normalisation: timestamps (an integer count of time units
    since the epoch) and numeric cells. *)
Definition DataFrame : Type := Frame Z fval.

(** [df.iloc[-k]] for [k >= 1]: the k-th row from the end, as a labelled row. *)
Definition iloc_row (df : DataFrame) (k : nat) : outcome (pydict fval) :=
  let n := length (index df) in
  if (n <? k)%nat then Raise IndexError
  else Ret (map (fun cv => (fst cv, nth (n - k) (snd cv) NaN)) (cols df)).

Definition row_get (r : pydict fval) (c : string) : outcome fval :=
  match dict_get c r with
  | Some x => Ret x
  | None => Raise KeyError
  end.

(** Insertion sort by a boolean order. *)
Fixpoint insert_by {A} (leb : A -> A -> bool) (x : A) (l : list A) : list A :=
  match l with
  | [] => [x]
  | y :: r => if leb x y then x :: l else y :: insert_by leb x r
  end.

Definition sort_by {A} (leb : A -> A -> bool) (l : list A) : list A :=
  fold_right (insert_by leb) [] l.

(** [df.sort_index(ascending=...)]: the rows reordered by label.  The order
    among equal labels is the library's choice and no statement below relies
    on it. *)
Definition sort_index (ascending : bool) (df : DataFrame) : DataFrame :=
  let leb := fun a b : Z * nat =>
               if ascending then Z.leb (fst a) (fst b) else Z.leb (fst b) (fst a) in
  let order := sort_by leb (combine (index df) (seq 0 (length (index df)))) in
  MkFrame (map fst order)
          (map (fun cv => (fst cv, map (fun p => nth (snd p) (snd cv) NaN) order))
               (cols df)).

(** ** Financial indicators *)

Definition calculate_sma (data : DataFrame) (window : nat) : outcome (list fval) :=
  obind (getitem data "Close") (fun close =>
  Ret (rolling_mean window close)).

Definition zip_with {A B C} (f : A -> B -> C) (a : list A) (b : list B) : list C :=
  map (fun p => f (fst p) (snd p)) (combine a b).

Definition calculate_rsi (data : DataFrame) (window : nat) : outcome (list fval) :=
  obind (getitem data "Close") (fun close =>
  let delta := diff close in
  let gain := rolling_mean window (where_ (fun d => fgt d (Fin 0)) (Fin 0) delta) in
  let loss := rolling_mean window
                (map fneg (where_ (fun d => flt d (Fin 0)) (Fin 0) delta)) in
  let rs := zip_with fdiv gain loss in
  Ret (map (fun r => fsub (Fin 100) (fdiv (Fin 100) (fadd (Fin 1) r))) rs)).

(** The default of the [window] argument. *)
Definition rsi_default_window : nat := 14.

(** ** Fetching and normalising *)

(** The decoded JSON body: a mapping whose value under the series key is a
    mapping from timestamp text to a mapping from field name to text; other
    keys (notes, error messages, metadata) hold something else. *)
Inductive top_value : Type :=
| Series (rows : pydict (pydict string))
| Note (text : string).

Definition payload : Type := pydict top_value.

Definition series_key : string := "Time Series (5min)".

(** Labels in order of first appearance. *)
Fixpoint dedup (l : list string) : list string :=
  match l with
  | [] => []
  | x :: r => x :: filter (fun y => negb (String.eqb x y)) (dedup r)
  end.

(** [pd.DataFrame.from_dict(data, orient='index')] on a mapping of mappings:
    one column per inner key, one row per outer key that carries at least one
    field, a missing cell where a row lacks the field. *)
Definition from_dict (data : pydict (pydict string)) : Frame string (option string) :=
  let names := dedup (flat_map (fun kv => map fst (snd kv)) data) in
  let has c := fun kv : string * pydict string => dict_mem c (snd kv) in
  let idx := dedup (flat_map (fun c => map fst (filter (has c) data)) names) in
  let cell c k := match dict_get k data with
                  | Some row => dict_get c row
                  | None => None
                  end in
  MkFrame idx (map (fun c => (c, map (cell c) idx)) names).

Definition column_names : pydict string :=
  [("1. open", "Open"); ("2. high", "High"); ("3. low", "Low");
   ("4. close", "Close"); ("5. volume", "Volume")]%string.

(** [df.rename(columns=mapper)]: a label found in the mapper is replaced, any
    other label is left as it is. *)
Definition rename_label (mapper : pydict string) (c : string) : string :=
  match dict_get c mapper with
  | Some c' => c'
  | None => c
  end.

Definition rename {I C} (mapper : pydict string) (df : Frame I C) : Frame I C :=
  MkFrame (index df) (map (fun cv => (rename_label mapper (fst cv), snd cv)) (cols df)).

(** Python's [str.upper], on ASCII letters. *)
Definition upper_ascii (c : ascii) : ascii :=
  let n := nat_of_ascii c in
  if (97 <=? n)%nat && (n <=? 122)%nat then ascii_of_nat (n - 32) else c.

Fixpoint upper (s : string) : string :=
  match s with
  | EmptyString => EmptyString
  | String c r => String (upper_ascii c) (upper r)
  end.

Inductive chart_type : Type := CandlestickChart | LineChart.

(** The sidebar widgets' values. *)
Record Inputs : Type := MkInputs {
  text_api_key : string;
  text_symbol : string;
  select_chart_type : chart_type;
  slider_sma_short : nat;
  slider_sma_long : nat
}.

Local Open Scope monad_scope.
Local Open Scope string_scope.

Section Dashboard.

(** The collaborators outside the program: the HTTP exchange (request,
    status check and JSON decoding: a failure of any of them is a
    [RequestException]) and the two pandas parsers, which answer [None]
    where they raise [ValueError]. *)
Variable requests_get : string -> pydict string -> outcome payload.
Variable to_datetime : string -> option Z.
Variable to_numeric : string -> option fval.

Definition to_datetime_label (s : string) : outcome Z :=
  match to_datetime s with
  | Some t => Ret t
  | None => Raise ValueError
  end.

Definition to_numeric_cell (c : option string) : outcome fval :=
  match c with
  | None => Ret NaN
  | Some s => match to_numeric s with
              | Some x => Ret x
              | None => Raise ValueError
              end
  end.

(** One turn of [for col in df.columns: df[col] = pd.to_numeric(df[col])].
    Under a label carried by two columns [df[col]] is a frame, which
    [pd.to_numeric] rejects. *)
Definition to_numeric_column (names : list string) (cv : string * list (option string))
  : outcome (string * list fval) :=
  if (1 <? count_name (fst cv) names)%nat then Raise TypeError
  else obind (mapM to_numeric_cell (snd cv)) (fun v => Ret (fst cv, v)).

Definition get_stock_data (api_key symbol : string) : M DataFrame :=
  let params := [("function", "TIME_SERIES_INTRADAY"); ("symbol", symbol);
                 ("interval", "5min"); ("apikey", api_key);
                 ("outputsize", "full")] in
  try_request
    (data <- lift (requests_get "https://www.alphavantage.co/query" params) ;;
     match dict_get series_key data with
     | None =>
         emit (StError ("Could not retrieve data for symbol '" ++ symbol
                        ++ "'. Check the symbol or API key.")) ;;;
         ret empty_frame
     | Some (Note _) => raise AttributeError
     | Some (Series rows) =>
         let df := from_dict rows in
         let df := rename column_names df in
         idx <- lift (mapM to_datetime_label (index df)) ;;
         cs <- lift (mapM (to_numeric_column (columns df)) (cols df)) ;;
         ret (sort_index true (MkFrame idx cs))
     end)
    (fun e => emit (StError ("API request failed: " ++ e)) ;;; ret empty_frame).

(** "Calculate indicators" *)
Definition calculate_indicators (data : DataFrame) (sma_short_window sma_long_window : nat)
  : M DataFrame :=
  sma_short <- lift (calculate_sma data sma_short_window) ;;
  let data := setitem data "SMA_Short" sma_short in
  sma_long <- lift (calculate_sma data sma_long_window) ;;
  let data := setitem data "SMA_Long" sma_long in
  rsi <- lift (calculate_rsi data rsi_default_window) ;;
  ret (setitem data "RSI" rsi).

(** "Display latest metrics" *)
Definition latest_metrics (symbol : string) (data : DataFrame) : M unit :=
  latest_data <- lift (iloc_row data 1) ;;
  prev_row <- lift (iloc_row data 2) ;;
  prev_close <- lift (row_get prev_row "Close") ;;
  latest_close <- lift (row_get latest_data "Close") ;;
  let price_change := fsub latest_close prev_close in
  let price_change_pct := fmul (fdiv price_change prev_close) (Fin 100) in
  emit (StMetric ("Last Price (" ++ symbol ++ ")") latest_close
                 (Some (price_change, price_change_pct))) ;;;
  high <- lift (getitem data "High") ;;
  emit (StMetric "Day High" (series_max high) None) ;;;
  low <- lift (getitem data "Low") ;;
  emit (StMetric "Day Low" (series_min low) None).

(** "Main Price Chart" *)
Definition price_chart (symbol : string) (chart : chart_type)
           (sma_short_window sma_long_window : nat) (data : DataFrame) : M unit :=
  price <- match chart with
           | CandlestickChart =>
               o <- lift (getitem data "Open") ;;
               h <- lift (getitem data "High") ;;
               l <- lift (getitem data "Low") ;;
               c <- lift (getitem data "Close") ;;
               ret (Candlestick o h l c)
           | LineChart =>
               c <- lift (getitem data "Close") ;;
               ret (Scatter "Close Price" c)
           end ;;
  s <- lift (getitem data "SMA_Short") ;;
  l <- lift (getitem data "SMA_Long") ;;
  emit (StPlotly (symbol ++ " Price Chart")
                 [price; ScatterSMA sma_short_window s;
                  ScatterSMA sma_long_window l]).

(** "RSI Chart" *)
Definition rsi_chart (data : DataFrame) : M unit :=
  rsi <- lift (getitem data "RSI") ;;
  emit (StPlotly "Relative Strength Index (RSI)" [Scatter "RSI" rsi]).

(** "Data Table" *)
Definition data_table (data : DataFrame) : M unit :=
  let t := sort_index false data in
  emit (StDataframe (index t) (cols t)).

(** "Main content" *)
Definition main_content (inp : Inputs) (api_key symbol : string) : M unit :=
  data <- get_stock_data api_key symbol ;;
  if negb (empty data) then
    data <- calculate_indicators data (slider_sma_short inp) (slider_sma_long inp) ;;
    latest_metrics symbol data ;;;
    price_chart symbol (select_chart_type inp)
                (slider_sma_short inp) (slider_sma_long inp) data ;;;
    rsi_chart data ;;;
    data_table data
  else
    emit (StInfo "Waiting for valid API key and symbol...").

(** The script, from the sidebar inputs on. *)
Definition dashboard (inp : Inputs) : M unit :=
  let api_key := text_api_key inp in
  let symbol := upper (text_symbol inp) in
  (if String.eqb api_key ""
   then emit (StWarning
                "Please enter your Alpha Vantage API key in the sidebar to start.") ;;;
        raise StopException
   else ret tt) ;;;
  main_content inp api_key symbol.

End Dashboard.

Local Close Scope string_scope.
Local Close Scope monad_scope.

(** ** The statements' vocabulary *)

Definition Qsum (l : list Q) : Q := fold_right Qplus 0 l.





(** The period-over-period difference at index [j]; there is none at the
    earliest index. *)
Definition close_diff (closes : list Q) (j : nat) : option Q :=
  match j with
  | O => None
  | S k => Some (nth j closes 0 - nth k closes 0)
  end.

Definition positive_part (d : Q) : Q := if Qlt_bool 0 d then d else 0.

Definition negative_magnitude (d : Q) : Q := if Qlt_bool d 0 then - d else 0.

(** A function of the difference, with zero where no difference exists. *)
Definition step_series (f : Q -> Q) (closes : list Q) : list Q :=
  map (fun j => match close_diff closes j with
                | Some d => f d
                | None => 0
                end) (seq 0 (length closes)).

Definition gains (closes : list Q) : list Q := step_series positive_part closes.

Definition losses (closes : list Q) : list Q := step_series negative_magnitude closes.

Definition rsi_formula (mean_gain mean_loss : fval) : fval :=
  fsub (Fin 100) (fdiv (Fin 100) (fadd (Fin 1) (fdiv mean_gain mean_loss))).

(** The same series, built along the list as [diff] does. *)
Fixpoint steps_from (f : Q -> Q) (prev : option Q) (closes : list Q) : list Q :=
  match closes with
  | [] => []
  | c :: rest =>
      match prev with Some p => f (c - p) | None => 0 end :: steps_from f (Some c) rest
  end.

Definition cell_of (prev : option Q) : fval :=
  match prev with Some p => Fin p | None => NaN end.

(** A frame holding only a close column, its rows labelled 0, 1, 2, ... *)
Definition close_frame (closes : list Q) : DataFrame :=
  MkFrame (map Z.of_nat (seq 0 (length closes))) [("Close"%string, map Fin closes)].

(** ** A reference instance of the collaborators

    Parsers for the provider's documented formats, decimal text and
    ["YYYY-MM-DD HH:MM:SS"], and an HTTP exchange that answers a fixed body.
    They instantiate the general statements at concrete payloads; pandas
    accepts more spellings than these. *)

Definition digit_of (c : ascii) : option Z :=
  let n := nat_of_ascii c in
  if (48 <=? n)%nat && (n <=? 57)%nat then Some (Z.of_nat (n - 48)) else None.

Fixpoint parse_fraction (s : string) (num : Z) (den : positive) : option Q :=
  match s with
  | EmptyString => Some (num # den)
  | String c r =>
      match digit_of c with
      | Some d => parse_fraction r (10 * num + d) (10 * den)
      | None => None
      end
  end.

Fixpoint parse_integer (s : string) (num : Z) (seen : bool) : option Q :=
  match s with
  | EmptyString => if seen then Some (num # 1) else None
  | String c r =>
      if Ascii.eqb c "."%char
      then (if seen then parse_fraction r num 1 else None)
      else match digit_of c with
           | Some d => parse_integer r (10 * num + d) true
           | None => None
           end
  end.

Definition decimal_to_numeric (s : string) : option fval :=
  match s with
  | String c r =>
      if Ascii.eqb c "-"%char
      then option_map (fun q => Fin (- q)) (parse_integer r 0 false)
      else option_map Fin (parse_integer s 0 false)
  | EmptyString => None
  end.

(** Days since 1970-01-01 of a proleptic Gregorian date. *)
Definition days_from_civil (y m d : Z) : Z :=
  let y := if (m <=? 2)%Z then (y - 1)%Z else y in
  let era := (y / 400)%Z in
  let yoe := (y - era * 400)%Z in
  let mp := ((m + 9) mod 12)%Z in
  let doy := ((153 * mp + 2) / 5 + d - 1)%Z in
  let doe := (yoe * 365 + yoe / 4 - yoe / 100 + doy)%Z in
  (era * 146097 + doe - 719468)%Z.

Definition is_leap (y : Z) : bool :=
  ((y mod 4 =? 0) && negb (y mod 100 =? 0) || (y mod 400 =? 0))%Z.

Definition days_in_month (y m : Z) : Z :=
  if (m =? 2)%Z then (if is_leap y then 29 else 28)%Z
  else if ((m =? 4) || (m =? 6) || (m =? 9) || (m =? 11))%Z then 30%Z
  else 31%Z.

(** A run of [n] digits, then the rest of the text. *)
Fixpoint take_digits (n : nat) (s : string) (acc : Z) : option (Z * string) :=
  match n with
  | O => Some (acc, s)
  | S n' =>
      match s with
      | String c r =>
          match digit_of c with
          | Some d => take_digits n' r (10 * acc + d)
          | None => None
          end
      | EmptyString => None
      end
  end.

Definition take_char (c : ascii) (s : string) : option string :=
  match s with
  | String c' r => if Ascii.eqb c c' then Some r else None
  | EmptyString => None
  end.

Definition obind_opt {A B} (o : option A) (k : A -> option B) : option B :=
  match o with Some a => k a | None => None end.

(** Seconds since the epoch of ["YYYY-MM-DD HH:MM:SS"]. *)
Definition iso_to_datetime (s : string) : option Z :=
  obind_opt (take_digits 4 s 0) (fun '(y, s) =>
  obind_opt (take_char "-" s) (fun s =>
  obind_opt (take_digits 2 s 0) (fun '(m, s) =>
  obind_opt (take_char "-" s) (fun s =>
  obind_opt (take_digits 2 s 0) (fun '(d, s) =>
  obind_opt (take_char " " s) (fun s =>
  obind_opt (take_digits 2 s 0) (fun '(hh, s) =>
  obind_opt (take_char ":" s) (fun s =>
  obind_opt (take_digits 2 s 0) (fun '(mm, s) =>
  obind_opt (take_char ":" s) (fun s =>
  obind_opt (take_digits 2 s 0) (fun '(ss, s) =>
  match s with
  | EmptyString =>
      if ((1 <=? m) && (m <=? 12) && (1 <=? d) && (d <=? days_in_month y m)
          && (hh <? 24) && (mm <? 60) && (ss <? 60))%Z
      then Some (days_from_civil y m d * 86400 + hh * 3600 + mm * 60 + ss)%Z
      else None
  | String _ _ => None
  end))))))))))).

(** An exchange that answers the decoded body [data]. *)
Definition serve (data : payload) : string -> pydict string -> outcome payload :=
  fun _ _ => Ret data.

(** One bar as the provider spells it. *)
Definition bar (o h l c v : string) : pydict string :=
  [("1. open", o); ("2. high", h); ("3. low", l); ("4. close", c);
   ("5. volume", v)]%string.

(** The series of the sample bodies. *)
Definition rows_two_points : pydict (pydict string) :=
  [("2024-01-02 09:35:00", bar "100.5" "111.0" "100.0" "110" "1200");
   ("2024-01-02 09:30:00", bar "99.0" "101.5" "98.25" "100" "900")]%string.

Definition rows_extra_field : pydict (pydict string) :=
  [("2024-01-02 09:35:00",
    (bar "100.5" "111.0" "100.0" "110" "1200" ++ [("6. vwap", "105.5")])%list);
   ("2024-01-02 09:30:00", bar "99.0" "101.5" "98.25" "100" "900")]%string.

Definition demo_inputs : Inputs :=
  {| text_api_key := "demo"; text_symbol := "msft";
     select_chart_type := LineChart;
     slider_sma_short := 20; slider_sma_long := 50 |}.

(** Two bars, newest first as the provider sends them. *)
Definition payload_two_points : payload :=
  [("Meta Data", Note "Intraday (5min) open, high, low, close prices and volume");
   (series_key, Series rows_two_points)]%string.

Definition payload_one_point : payload :=
  [(series_key,
    Series [("2024-01-02 09:30:00", bar "99.0" "101.5" "98.25" "100" "900")])]%string.

(** The body the provider sends for an unknown symbol or a bad key. *)
Definition payload_no_series : payload :=
  [("Error Message", Note "Invalid API call.")]%string.

Definition payload_bad_timestamp : payload :=
  [(series_key,
    Series [("2024-01-02 09:35:00", bar "100.5" "111.0" "100.0" "110" "1200");
            ("yesterday", bar "99.0" "101.5" "98.25" "100" "900")])]%string.

Definition payload_bad_number : payload :=
  [(series_key,
    Series [("2024-01-02 09:35:00", bar "100.5" "111.0" "100.0" "n/a" "1200");
            ("2024-01-02 09:30:00", bar "99.0" "101.5" "98.25" "100" "900")])]%string.

(** A bar that carries a field the provider does not document. *)
Definition payload_extra_field : payload :=
  [(series_key, Series rows_extra_field)]%string.

(** A frame of high, low and close columns, its rows labelled 0, 1, 2, ... *)
Definition price_frame (highs lows closes : list Q) : DataFrame :=
  MkFrame (map Z.of_nat (seq 0 (length closes)))
          [("High"%string, map Fin highs); ("Low"%string, map Fin lows);
           ("Close"%string, map Fin closes)].



(** The frame the normaliser returns on the body with a sixth field. *)
Definition frame_extra_field : DataFrame :=
  MkFrame [1704187800%Z; 1704188100%Z]
          [("Open"%string, [Fin 99.0; Fin 100.5]);
           ("High"%string, [Fin 101.5; Fin 111.0]);
           ("Low"%string, [Fin 98.25; Fin 100.0]);
           ("Close"%string, [Fin 100; Fin 110]);
           ("Volume"%string, [Fin 900; Fin 1200]);
           ("6. vwap"%string, [NaN; Fin 105.5])].

Definition sample_closes : list Q := [3; 2; 1; 4; 4; 4].


(** ** Vocabulary for columns with missing cells *)

(** The [w] entries ending at index [i], inclusive, of any list. *)
Definition window {A} (w i : nat) (l : list A) : list A :=
  firstn w (skipn (i + 1 - w) l).





(** Every column has one cell per row. *)
Definition rectangular {I C} (df : Frame I C) : Prop :=
  forall c v, In (c, v) (cols df) -> length v = length (index df).

(** ** Vocabulary for the normaliser *)

(** The instant of a label that parses, the number of a cell that parses. *)
Definition instant_of (to_datetime : string -> option Z) (k : string) : Z :=
  match to_datetime k with Some t => t | None => 0%Z end.

Definition numeric_of (to_numeric : string -> option fval) (c : option string) : fval :=
  match c with
  | None => NaN
  | Some s => match to_numeric s with Some x => x | None => NaN end
  end.

(** An exchange that fails with the text [why]. *)
Definition refuse (why : string) : string -> pydict string -> outcome payload :=
  fun _ _ => Raise (RequestException why).


Definition no_key_inputs : Inputs :=
  {| text_api_key := ""; text_symbol := "msft";
     select_chart_type := CandlestickChart;
     slider_sma_short := 20; slider_sma_long := 50 |}.

(** Bars without a close, and bars without an open. *)
Definition payload_no_close : payload :=
  [(series_key,
    Series [("2024-01-02 09:35:00", [("1. open", "100.5"); ("2. high", "111.0")]);
            ("2024-01-02 09:30:00", [("1. open", "99.0"); ("2. high", "101.5")])])]%string.



(** ** Sample frames for the further properties *)




(** Closes 5, 0, 7 with some high and low cells missing. *)
Definition gappy_frame : DataFrame :=
  MkFrame [0%Z; 1%Z; 2%Z]
          [("High"%string, map cell_of [Some 6; None; Some 8]);
           ("Low"%string, map cell_of [None; None; None]);
           ("Close"%string, map Fin [5; 0; 7])].

(** The frames the normaliser returns on the sample bodies. *)
Definition frame_two_points : DataFrame :=
  MkFrame [1704187800%Z; 1704188100%Z]
          [("Open"%string, [Fin 99.0; Fin 100.5]);
           ("High"%string, [Fin 101.5; Fin 111.0]);
           ("Low"%string, [Fin 98.25; Fin 100.0]);
           ("Close"%string, [Fin 100; Fin 110]);
           ("Volume"%string, [Fin 900; Fin 1200])].

Definition frame_no_close : DataFrame :=
  MkFrame [1704187800%Z; 1704188100%Z]
          [("Open"%string, [Fin 99.0; Fin 100.5]);
           ("High"%string, [Fin 101.5; Fin 111.0])].


Definition early_closes : list Q := [3; 2; 1].

Definition late_closes : list Q := [4; 4; 4].

Definition bar_with_vwap : pydict string :=
  (bar "100.5" "111.0" "100.0" "110" "1200" ++ [("6. vwap"%string, "105.5"%string)])%list.

(** * Properties *)

(** ** Cells *)

Lemma same_value_refl a : same_value a a.
Proof. destruct a; simpl; auto. reflexivity. Qed.

Lemma same_value_sym a b : same_value a b -> same_value b a.
Proof. destruct a, b; simpl; auto. intros H; symmetry; exact H. Qed.

Lemma same_value_trans a b c : same_value a b -> same_value b c -> same_value a c.
Proof.
  destruct a, b, c; simpl; auto; try tauto.
  intros H1 H2. rewrite H1. exact H2.
Qed.

#[global] Instance same_value_equiv : Equivalence same_value.
Proof.
  split.
  - exact same_value_refl.
  - exact same_value_sym.
  - exact same_value_trans.
Qed.

Lemma same_valueb_iff a b : same_valueb a b = true <-> same_value a b.
Proof.
  destruct a, b; simpl; try (split; (discriminate || tauto)).
  apply Qeq_bool_iff.
Qed.

Lemma Qlt_bool_iff a b : Qlt_bool a b = true <-> a < b.
Proof.
  unfold Qlt_bool. rewrite negb_true_iff.
  split.
  - intros H. apply Qnot_le_lt. intros Hle.
    apply Qle_bool_iff in Hle. congruence.
  - intros H. destruct (Qle_bool b a) eqn:E; auto.
    apply Qle_bool_iff in E. lra.
Qed.

Lemma Qlt_bool_false a b : Qlt_bool a b = false <-> b <= a.
Proof.
  unfold Qlt_bool. rewrite negb_false_iff. apply Qle_bool_iff.
Qed.

Lemma Qeq_bool_false a b : Qeq_bool a b = false <-> ~ a == b.
Proof.
  split.
  - intros H He. apply Qeq_bool_iff in He. congruence.
  - intros H. destruct (Qeq_bool a b) eqn:E; auto.
    apply Qeq_bool_iff in E. contradiction.
Qed.



(** ** Sums over windows *)

Lemma Qsum_app a b : Qsum (a ++ b) == Qsum a + Qsum b.
Proof.
  induction a as [|x a IH]; simpl.
  - ring.
  - rewrite IH. ring.
Qed.




(** ** The rolling mean *)





Lemma roll_mean_loop_length values w : forall todo i st,
  length (roll_mean_loop values w i st todo) = length todo.
Proof.
  induction todo as [|v rest IH]; intros i st; simpl; [reflexivity|].
  rewrite IH. reflexivity.
Qed.

Lemma rolling_mean_length w values : length (rolling_mean w values) = length values.
Proof.
  destruct w; simpl.
  - apply length_map.
  - apply roll_mean_loop_length.
Qed.





(** ** Arithmetic on cells respects [same_value] *)

Lemma Qsign_comp x y : x == y -> Qsign x = Qsign y.
Proof. intros H. unfold Qsign. rewrite H. reflexivity. Qed.

Lemma Qeq_bool_comp x y z : x == y -> Qeq_bool x z = Qeq_bool y z.
Proof.
  intros H. destruct (Qeq_bool y z) eqn:E.
  - apply Qeq_bool_iff. apply Qeq_bool_iff in E. rewrite H. exact E.
  - apply Qeq_bool_false. apply Qeq_bool_false in E. rewrite H. exact E.
Qed.

Lemma Qlt_bool_comp_l x y z : x == y -> Qlt_bool x z = Qlt_bool y z.
Proof.
  intros H. destruct (Qlt_bool y z) eqn:E.
  - apply Qlt_bool_iff. apply Qlt_bool_iff in E. rewrite H. exact E.
  - apply Qlt_bool_false. apply Qlt_bool_false in E. rewrite H. exact E.
Qed.

#[global] Instance fneg_proper : Proper (same_value ==> same_value) fneg.
Proof.
  intros [x| | |] [y| | |] H; simpl in *; try contradiction; auto.
  rewrite H. reflexivity.
Qed.

#[global] Instance fadd_proper : Proper (same_value ==> same_value ==> same_value) fadd.
Proof.
  intros [x| | |] [y| | |] H [x'| | |] [y'| | |] H'; simpl in *;
    try contradiction; auto.
  rewrite H, H'. reflexivity.
Qed.

#[global] Instance fsub_proper : Proper (same_value ==> same_value ==> same_value) fsub.
Proof.
  intros a b H a' b' H'. unfold fsub. rewrite H, H'. reflexivity.
Qed.

#[global] Instance fmul_proper : Proper (same_value ==> same_value ==> same_value) fmul.
Proof.
  intros [x| | |] [y| | |] H [x'| | |] [y'| | |] H'; simpl in *;
    try contradiction; auto;
    try (rewrite (Qsign_comp _ _ H); reflexivity);
    try (rewrite (Qsign_comp _ _ H'); reflexivity).
  rewrite H, H'. reflexivity.
Qed.

#[global] Instance fdiv_proper : Proper (same_value ==> same_value ==> same_value) fdiv.
Proof.
  intros [x| | |] [y| | |] H [x'| | |] [y'| | |] H'; simpl in *;
    try contradiction; auto;
    try (rewrite (Qlt_bool_comp_l _ _ 0 H'); reflexivity);
    try reflexivity.
  rewrite (Qeq_bool_comp _ _ 0 H'), (Qsign_comp _ _ H).
  destruct (Qeq_bool y' 0) eqn:E.
  - reflexivity.
  - simpl. apply Qeq_bool_false in E. rewrite H, H'. reflexivity.
Qed.

#[global] Instance rsi_formula_proper :
  Proper (same_value ==> same_value ==> same_value) rsi_formula.
Proof.
  intros a b H a' b' H'. unfold rsi_formula. rewrite H, H'. reflexivity.
Qed.

(** ** C1: the simple moving average *)


(** ** The gain and loss series *)

Lemma steps_from_length f closes : forall prev,
  length (steps_from f prev closes) = length closes.
Proof.
  induction closes as [|c r IH]; intros prev; simpl; [reflexivity|].
  rewrite IH. reflexivity.
Qed.

Lemma steps_from_nth f closes : forall prev j,
  (j < length closes)%nat ->
  nth j (steps_from f prev closes) 0 =
    match j with
    | O => match prev with Some p => f (nth 0 closes 0 - p) | None => 0 end
    | S k => f (nth (S k) closes 0 - nth k closes 0)
    end.
Proof.
  induction closes as [|c r IH]; intros prev j Hj; simpl in Hj; [lia|].
  destruct j as [|k]; [reflexivity|].
  change (nth (S k) (steps_from f prev (c :: r)) 0)
    with (nth k (steps_from f (Some c) r) 0).
  rewrite IH by lia.
  destruct k; reflexivity.
Qed.

Lemma step_series_length f closes : length (step_series f closes) = length closes.
Proof. unfold step_series. rewrite length_map, length_seq. reflexivity. Qed.

Lemma step_series_nth f closes j :
  (j < length closes)%nat ->
  nth j (step_series f closes) 0 =
    match close_diff closes j with Some d => f d | None => 0 end.
Proof.
  intros Hj. unfold step_series.
  set (g := fun j => match close_diff closes j with Some d => f d | None => 0 end).
  rewrite (nth_indep _ 0 (g 0%nat)) by (rewrite length_map, length_seq; exact Hj).
  rewrite map_nth, seq_nth by exact Hj. reflexivity.
Qed.

Lemma steps_from_series f closes : steps_from f None closes = step_series f closes.
Proof.
  apply (nth_ext _ _ 0 0).
  - rewrite steps_from_length, step_series_length. reflexivity.
  - intros j Hj. rewrite steps_from_length in Hj.
    rewrite steps_from_nth, step_series_nth by exact Hj.
    destruct j; reflexivity.
Qed.

Lemma map_diff_from (g : fval -> fval) (f : Q -> Q) closes :
  g NaN = Fin 0 -> (forall d, g (Fin d) = Fin (f d)) ->
  forall prev,
    map g (diff_from (cell_of prev) (map Fin closes)) = map Fin (steps_from f prev closes).
Proof.
  intros HN HF. induction closes as [|c r IH]; intros prev; [reflexivity|].
  simpl. rewrite <- (IH (Some c)). f_equal.
  destruct prev as [p|]; simpl.
  - apply HF.
  - exact HN.
Qed.

Lemma gain_series closes :
  where_ (fun d => fgt d (Fin 0)) (Fin 0) (diff (map Fin closes)) = map Fin (gains closes).
Proof.
  unfold where_, diff, gains. rewrite <- steps_from_series.
  apply (map_diff_from _ positive_part closes) with (prev := None).
  - reflexivity.
  - intros d. unfold positive_part. simpl. destruct (Qlt_bool 0 d); reflexivity.
Qed.

Lemma loss_series closes :
  map fneg (where_ (fun d => flt d (Fin 0)) (Fin 0) (diff (map Fin closes)))
  = map Fin (losses closes).
Proof.
  unfold where_, diff, losses. rewrite <- steps_from_series, map_map.
  apply (map_diff_from _ negative_magnitude closes) with (prev := None).
  - reflexivity.
  - intros d. unfold negative_magnitude, flt. simpl.
    destruct (Qlt_bool d 0); reflexivity.
Qed.

Lemma zip_with_nth {A B C} (f : A -> B -> C) a b i da db dc :
  (i < length a)%nat -> (i < length b)%nat ->
  nth i (zip_with f a b) dc = f (nth i a da) (nth i b db).
Proof.
  unfold zip_with. revert b i.
  induction a as [|x a IH]; intros b i Ha Hb; simpl in Ha; [lia|].
  destruct b as [|y b]; simpl in Hb; [lia|].
  destruct i as [|i]; simpl; [reflexivity|].
  apply IH; lia.
Qed.

Lemma zip_with_length {A B C} (f : A -> B -> C) a b :
  length a = length b -> length (zip_with f a b) = length a.
Proof.
  intros H. unfold zip_with. rewrite length_map, length_combine. lia.
Qed.

(** The value of [calculate_rsi] at an index of the series, in terms of the two
    rolling means the function computes. *)
Lemma calculate_rsi_unfold (data : DataFrame) closes w :
  getitem data "Close" = Ret (map Fin closes) ->
  exists rsi,
    calculate_rsi data w = Ret rsi /\
    length rsi = length closes /\
    forall i, (i < length closes)%nat ->
      nth i rsi NaN =
        rsi_formula (nth i (rolling_mean w (map Fin (gains closes))) NaN)
                    (nth i (rolling_mean w (map Fin (losses closes))) NaN).
Proof.
  intros H. unfold calculate_rsi. rewrite H. cbn [obind].
  rewrite gain_series, loss_series.
  eexists. split; [reflexivity|].
  assert (Lg : length (rolling_mean w (map Fin (gains closes))) = length closes).
  { rewrite rolling_mean_length, length_map. apply step_series_length. }
  assert (Ll : length (rolling_mean w (map Fin (losses closes))) = length closes).
  { rewrite rolling_mean_length, length_map. apply step_series_length. }
  split.
  - rewrite length_map, zip_with_length; congruence.
  - intros i Hi.
    set (h := fun r => fsub (Fin 100) (fdiv (Fin 100) (fadd (Fin 1) r))).
    change NaN with (h NaN) at 1. rewrite map_nth.
    rewrite (zip_with_nth fdiv _ _ i NaN NaN NaN) by lia.
    reflexivity.
Qed.

(** ** The RSI formula *)









Lemma rsi_formula_NaN_l b : rsi_formula NaN b = NaN.
Proof. reflexivity. Qed.

Lemma rsi_formula_NaN_r a : rsi_formula a NaN = NaN.
Proof. destruct a; reflexivity. Qed.




(** ** C2: the relative strength index *)


(** ** C3: range and edge cases of the RSI *)

Lemma rolling_mean_zero values i : nth i (rolling_mean 0 values) NaN = NaN.
Proof.
  simpl. revert i. induction values as [|v r IH]; intros [|i]; simpl; auto.
Qed.


(** ** C10: the first difference *)





(** ** Frames *)

Lemma getitem_Ret {I C} (df : Frame I C) c v :
  getitem df c = Ret v <-> dict_get c (cols df) = Some v.
Proof.
  unfold getitem. destruct (dict_get c (cols df)); split; intros H;
    try discriminate; congruence.
Qed.

Lemma dict_get_map {A B} (g : A -> B) c (l : pydict A) :
  dict_get c (map (fun cv => (fst cv, g (snd cv))) l) = option_map g (dict_get c l).
Proof.
  induction l as [|[c' v] l IH]; simpl; [reflexivity|].
  destruct (String.eqb c c'); [reflexivity|exact IH].
Qed.

Lemma dict_get_set_col_other {C} c c' (v : list C) l :
  c <> c' -> dict_get c (set_col c' v l) = dict_get c l.
Proof.
  intros Hne. induction l as [|[k x] l IH]; simpl.
  - destruct (String.eqb_spec c c'); [contradiction|reflexivity].
  - destruct (String.eqb_spec c' k) as [->|Hk]; simpl.
    + destruct (String.eqb_spec c k); [contradiction|reflexivity].
    + destruct (String.eqb c k); [reflexivity|exact IH].
Qed.

Lemma dict_get_set_col_same {C} c (v : list C) l :
  dict_get c (set_col c v l) = Some v.
Proof.
  induction l as [|[k x] l IH]; simpl.
  - rewrite String.eqb_refl. reflexivity.
  - destruct (String.eqb_spec c k) as [->|Hk]; simpl.
    + rewrite String.eqb_refl. reflexivity.
    + destruct (String.eqb_spec c k); [contradiction|exact IH].
Qed.

(** ** Maximum and minimum of a finite column *)






(** ** C4: the latest metrics *)



(** On the two-point series with closes 100 then 110 the change is 10 and the
    change in percent is 10. *)
Lemma latest_metrics_two_points :
  exists change_pct,
    latest_metrics "X" (price_frame [101; 111] [99; 100] [100; 110]) [] =
      (Ret tt,
       [StMetric "Last Price (X)" (Fin 110) (Some (Fin 10, Fin change_pct));
        StMetric "Day High" (Fin 111) None;
        StMetric "Day Low" (Fin 99) None]) /\
    change_pct == 10.
Proof.
  exists (1000 # 100). split; [vm_compute; reflexivity|reflexivity].
Qed.

(** ** C5: a series of fewer than two points *)

Lemma latest_metrics_one_row (symbol : string) (data : DataFrame) log :
  length (index data) = 1%nat ->
  latest_metrics symbol data log = (Raise IndexError, log).
Proof.
  intros H. unfold latest_metrics, bind, lift, iloc_row. rewrite H. reflexivity.
Qed.

(** C5, on the code.  With a body that holds one bar the frame is not empty,
    the script enters the metrics step, and reading the second-to-last row
    raises [IndexError]; nothing has been put on the page. *)
Theorem dashboard_one_point_index_error :
  get_stock_data (serve payload_one_point) iso_to_datetime decimal_to_numeric
                 "demo" "MSFT" [] =
    (Ret (MkFrame [1704187800%Z]
                  [("Open"%string, [Fin 99.0]); ("High"%string, [Fin 101.5]);
                   ("Low"%string, [Fin 98.25]); ("Close"%string, [Fin 100]);
                   ("Volume"%string, [Fin 900])]), []) /\
  dashboard (serve payload_one_point) iso_to_datetime decimal_to_numeric
            demo_inputs [] = (Raise IndexError, []).
Proof.
  split; vm_compute; reflexivity.
Qed.

(** ** C6: a body without the series key *)

(** C6.  When the decoded body has no entry under ["Time Series (5min)"],
    [get_stock_data] reports the error on the page and returns the empty
    frame, without raising; the script then shows the waiting notice and ends
    normally, and nothing else (no metric, no chart, no table) is put on the
    page. *)
Theorem get_stock_data_missing_series
        (requests_get : string -> pydict string -> outcome payload)
        (to_datetime : string -> option Z) (to_numeric : string -> option fval)
        (inp : Inputs) (data : payload) :
  text_api_key inp <> EmptyString ->
  (forall url params, requests_get url params = Ret data) ->
  dict_get series_key data = None ->
  let symbol := upper (text_symbol inp) in
  let msg := ("Could not retrieve data for symbol '" ++ symbol
              ++ "'. Check the symbol or API key.")%string in
  (forall log,
      get_stock_data requests_get to_datetime to_numeric (text_api_key inp) symbol log
      = (Ret empty_frame, log ++ [StError msg])) /\
  dashboard requests_get to_datetime to_numeric inp [] =
    (Ret tt, [StError msg; StInfo "Waiting for valid API key and symbol..."]).
Proof.
  intros Hkey Hreq Hmiss symbol msg.
  assert (Hget : forall log,
             get_stock_data requests_get to_datetime to_numeric (text_api_key inp)
                            symbol log = (Ret empty_frame, log ++ [StError msg])).
  { intros log. unfold get_stock_data, try_request, bind, lift.
    rewrite Hreq, Hmiss. reflexivity. }
  split; [exact Hget|].
  unfold dashboard.
  destruct (String.eqb_spec (text_api_key inp) "") as [E|_]; [contradiction|].
  unfold main_content. fold symbol.
  unfold bind at 1. unfold ret at 1. unfold bind at 1.
  rewrite Hget. reflexivity.
Qed.

(** ** C8: text that does not parse *)

(** C8, on the code.  A timestamp or a field value that the parsers reject
    raises [ValueError] inside [get_stock_data]; the handler there catches
    request failures only, so the exception leaves the function and ends the
    script, with no error description on the page. *)
Theorem dashboard_parse_failure_uncaught :
  get_stock_data (serve payload_bad_timestamp) iso_to_datetime decimal_to_numeric
                 "demo" "MSFT" [] = (Raise ValueError, []) /\
  dashboard (serve payload_bad_timestamp) iso_to_datetime decimal_to_numeric
            demo_inputs [] = (Raise ValueError, []) /\
  get_stock_data (serve payload_bad_number) iso_to_datetime decimal_to_numeric
                 "demo" "MSFT" [] = (Raise ValueError, []) /\
  dashboard (serve payload_bad_number) iso_to_datetime decimal_to_numeric
            demo_inputs [] = (Raise ValueError, []).
Proof.
  repeat split; vm_compute; reflexivity.
Qed.

(** ** C9: the column labels *)

Lemma mapM_Ret_cons {A B} (f : A -> outcome B) x l ys :
  mapM f (x :: l) = Ret ys ->
  exists y ys', ys = y :: ys' /\ f x = Ret y /\ mapM f l = Ret ys'.
Proof.
  simpl. destruct (f x) as [y|e]; simpl; [|discriminate].
  destruct (mapM f l) as [ys'|e]; simpl; [|discriminate].
  intros H. injection H as <-. eauto.
Qed.

Lemma mapM_length {A B} (f : A -> outcome B) l : forall ys,
  mapM f l = Ret ys -> length ys = length l.
Proof.
  induction l as [|x l IH]; intros ys H.
  - injection H as <-. reflexivity.
  - destruct (mapM_Ret_cons f x l ys H) as (y & ys' & -> & _ & H').
    simpl. rewrite (IH ys' H'). reflexivity.
Qed.

Lemma to_numeric_columns_names to_numeric names l : forall cs,
  mapM (to_numeric_column to_numeric names) l = Ret cs -> map fst cs = map fst l.
Proof.
  induction l as [|x l IH]; intros cs H.
  - injection H as <-. reflexivity.
  - destruct (mapM_Ret_cons _ x l cs H) as (y & ys' & -> & Hy & H').
    simpl. rewrite (IH ys' H'). f_equal.
    unfold to_numeric_column in Hy.
    destruct (1 <? count_name (fst x) names)%nat; [discriminate|].
    destruct (mapM (to_numeric_cell to_numeric) (snd x)); [|discriminate].
    injection Hy as <-. reflexivity.
Qed.

Lemma sort_index_columns asc (df : DataFrame) : columns (sort_index asc df) = columns df.
Proof.
  unfold columns, sort_index. simpl. rewrite map_map. reflexivity.
Qed.

Lemma rename_label_other mapper c :
  ~ In c (map fst mapper) -> rename_label mapper c = c.
Proof.
  unfold rename_label. induction mapper as [|[k v] m IH]; simpl; intros H.
  - reflexivity.
  - destruct (String.eqb_spec c k) as [->|Hk].
    + exfalso. apply H. left. reflexivity.
    + apply IH. intros Hin. apply H. right. exact Hin.
Qed.

Lemma mapM_Raise {A B} (f : A -> outcome B) l e :
  mapM f l = Raise e -> exists x, In x l /\ f x = Raise e.
Proof.
  induction l as [|x l IH]; simpl; [discriminate|].
  destruct (f x) as [y|e'] eqn:Ex; simpl.
  - destruct (mapM f l) as [ys|e'']; simpl; [discriminate|].
    intros H. injection H as ->.
    destruct (IH eq_refl) as (x' & Hin & Hx'). eauto.
  - intros H. injection H as ->. eauto.
Qed.

Lemma to_datetime_label_raises to_datetime k e :
  to_datetime_label to_datetime k = Raise e -> e = ValueError.
Proof.
  unfold to_datetime_label. destruct (to_datetime k); [discriminate|].
  intros H. injection H as <-. reflexivity.
Qed.

Lemma to_numeric_cell_raises to_numeric c e :
  to_numeric_cell to_numeric c = Raise e -> e = ValueError.
Proof.
  unfold to_numeric_cell. destruct c as [s|]; [|discriminate].
  destruct (to_numeric s); [discriminate|].
  intros H. injection H as <-. reflexivity.
Qed.

Lemma to_numeric_column_raises to_numeric names cv e :
  to_numeric_column to_numeric names cv = Raise e -> e = TypeError \/ e = ValueError.
Proof.
  unfold to_numeric_column.
  destruct (1 <? count_name (fst cv) names)%nat.
  - intros H. injection H as <-. left. reflexivity.
  - destruct (mapM (to_numeric_cell to_numeric) (snd cv)) as [v|e'] eqn:Em; simpl;
      [discriminate|].
    intros H. injection H as ->. right.
    destruct (mapM_Raise _ _ _ Em) as (c & _ & Hc).
    exact (to_numeric_cell_raises _ _ _ Hc).
Qed.

(** What [get_stock_data] does on a body that carries a series: the steps
    after the key test, written out.  Neither parser raises a request
    failure, so the handler is not entered. *)
Lemma get_stock_data_series requests_get to_datetime to_numeric api_key symbol
      data rows log :
  (forall url params, requests_get url params = Ret data) ->
  dict_get series_key data = Some (Series rows) ->
  get_stock_data requests_get to_datetime to_numeric api_key symbol log =
    let df := rename column_names (from_dict rows) in
    match mapM (to_datetime_label to_datetime) (index df) with
    | Raise e => (Raise e, log)
    | Ret idx =>
        match mapM (to_numeric_column to_numeric (columns df)) (cols df) with
        | Raise e => (Raise e, log)
        | Ret cs => (Ret (sort_index true (MkFrame idx cs)), log)
        end
    end.
Proof.
  intros Hreq Hkey. unfold get_stock_data, try_request, bind, lift, ret.
  rewrite Hreq, Hkey. cbv zeta.
  destruct (mapM (to_datetime_label to_datetime) _) as [idx|e] eqn:Ei.
  - destruct (mapM (to_numeric_column to_numeric _) _) as [cs|e] eqn:Ec.
    + reflexivity.
    + destruct (mapM_Raise _ _ _ Ec) as (cv & _ & Hcv).
      destruct (to_numeric_column_raises _ _ _ _ Hcv) as [-> | ->]; reflexivity.
  - destruct (mapM_Raise _ _ _ Ei) as (k & _ & Hk).
    rewrite (to_datetime_label_raises _ _ _ Hk). reflexivity.
Qed.

(** C9, as the code has it.  The renaming is a fixed mapping from the five
    provider field names to the canonical names and leaves every other label
    as it is.  The columns of the frame [get_stock_data] returns are the field
    names of the body, in order of first appearance, each passed through that
    mapping: a field outside the mapping stays in the frame under its own
    name. *)
Theorem get_stock_data_columns
        (requests_get : string -> pydict string -> outcome payload)
        (to_datetime : string -> option Z) (to_numeric : string -> option fval)
        (api_key symbol : string) (data : payload)
        (rows : pydict (pydict string)) (df : DataFrame) (log log' : list st_event) :
  (forall url params, requests_get url params = Ret data) ->
  dict_get series_key data = Some (Series rows) ->
  get_stock_data requests_get to_datetime to_numeric api_key symbol log = (Ret df, log') ->
  let fields := dedup (flat_map (fun kv => map fst (snd kv)) rows) in
  columns df = map (rename_label column_names) fields /\
  map (rename_label column_names)
      ["1. open"; "2. high"; "3. low"; "4. close"; "5. volume"]%string
    = ["Open"; "High"; "Low"; "Close"; "Volume"]%string /\
  (forall c, ~ In c ["1. open"; "2. high"; "3. low"; "4. close"; "5. volume"]%string ->
             rename_label column_names c = c) /\
  (forall c, In c fields ->
             ~ In c ["1. open"; "2. high"; "3. low"; "4. close"; "5. volume"]%string ->
             In c (columns df)).
Proof.
  intros Hreq Hkey Hrun fields.
  rewrite (get_stock_data_series _ _ _ _ _ data rows log Hreq Hkey) in Hrun.
  cbv zeta in Hrun.
  destruct (mapM (to_datetime_label to_datetime) _) as [idx|e]; [|discriminate].
  destruct (mapM (to_numeric_column to_numeric _) _) as [cs|e] eqn:Ec; [|discriminate].
  injection Hrun as <- _.
  assert (Hcols : columns (sort_index true (MkFrame idx cs))
                  = map (rename_label column_names) fields).
  { rewrite sort_index_columns. unfold columns at 1. simpl.
    rewrite (to_numeric_columns_names _ _ _ _ Ec).
    unfold rename, from_dict. simpl. rewrite !map_map. reflexivity. }
  assert (Hother : forall c,
             ~ In c ["1. open"; "2. high"; "3. low"; "4. close"; "5. volume"]%string ->
             rename_label column_names c = c).
  { intros c Hc. apply rename_label_other. exact Hc. }
  split; [exact Hcols|]. split; [reflexivity|]. split; [exact Hother|].
  intros c Hin Hc. rewrite Hcols. apply in_map_iff.
  exists c. split; [apply Hother; exact Hc|exact Hin].
Qed.

(** A bar with a sixth field: the frame keeps it as a sixth column. *)
Lemma get_stock_data_keeps_unknown_field :
  ~ (forall (data : payload) (df : DataFrame) (c : string),
        get_stock_data (serve data) iso_to_datetime decimal_to_numeric
                       "demo" "MSFT" [] = (Ret df, []) ->
        In c (columns df) ->
        In c ["Open"; "High"; "Low"; "Close"; "Volume"]%string).
Proof.
  intros H.
  assert (Hin : In "6. vwap"%string ["Open"; "High"; "Low"; "Close"; "Volume"]%string).
  { eapply (H payload_extra_field).
    - vm_compute. reflexivity.
    - simpl. auto 10. }
  simpl in Hin. repeat (destruct Hin as [Hin|Hin]; [discriminate Hin|]). exact Hin.
Qed.

(** ** Sorting by label *)

Section InsertionSort.

Context {A : Type} (leb : A -> A -> bool).
Hypothesis leb_total : forall a b, leb a b = false -> leb b a = true.
Hypothesis leb_trans : forall a b c, leb a b = true -> leb b c = true -> leb a c = true.

Lemma insert_by_perm x l : Permutation (insert_by leb x l) (x :: l).
Proof.
  induction l as [|y r IH]; simpl.
  - apply Permutation_refl.
  - destruct (leb x y).
    + apply Permutation_refl.
    + apply perm_trans with (y :: x :: r).
      * apply perm_skip. exact IH.
      * apply perm_swap.
Qed.

Lemma sort_by_perm l : Permutation (sort_by leb l) l.
Proof.
  induction l as [|x r IH]; simpl.
  - apply perm_nil.
  - apply perm_trans with (x :: sort_by leb r).
    + apply insert_by_perm.
    + apply perm_skip. exact IH.
Qed.

Lemma insert_by_Forall (P : A -> Prop) x l :
  P x -> Forall P l -> Forall P (insert_by leb x l).
Proof.
  intros Hx Hl. induction Hl as [|y r Hy Hr IH]; simpl.
  - constructor; [exact Hx|constructor].
  - destruct (leb x y); repeat constructor; assumption.
Qed.

Lemma insert_by_sorted x l :
  StronglySorted (fun a b => leb a b = true) l ->
  StronglySorted (fun a b => leb a b = true) (insert_by leb x l).
Proof.
  intros Hl. induction Hl as [|y r Hr IH Hy]; simpl.
  - constructor; constructor.
  - destruct (leb x y) eqn:E.
    + constructor.
      * constructor; assumption.
      * constructor; [exact E|].
        eapply Forall_impl; [|exact Hy].
        intros z Hz. exact (leb_trans _ _ _ E Hz).
    + constructor; [exact IH|].
      apply insert_by_Forall; [apply leb_total; exact E|exact Hy].
Qed.

Lemma sort_by_sorted l : StronglySorted (fun a b => leb a b = true) (sort_by leb l).
Proof.
  induction l as [|x r IH]; simpl.
  - constructor.
  - apply insert_by_sorted. exact IH.
Qed.

End InsertionSort.

Lemma StronglySorted_map {A B} (f : A -> B) (R : B -> B -> Prop) l :
  StronglySorted (fun a b => R (f a) (f b)) l -> StronglySorted R (map f l).
Proof.
  induction 1 as [|x r Hr IH Hx]; simpl; constructor; [exact IH|].
  apply Forall_map. exact Hx.
Qed.

Lemma StronglySorted_weaken {A} (R R' : A -> A -> Prop) l :
  (forall a b, R a b -> R' a b) -> StronglySorted R l -> StronglySorted R' l.
Proof.
  intros H. induction 1 as [|x r Hr IH Hx]; constructor; [exact IH|].
  eapply Forall_impl; [|exact Hx]. intros y. apply H.
Qed.


Lemma map_fst_combine {A B} (a : list A) (b : list B) :
  length a = length b -> map fst (combine a b) = a.
Proof.
  revert b. induction a as [|x a IH]; intros [|y b] H; simpl in *;
    try reflexivity; try discriminate.
  rewrite IH by lia. reflexivity.
Qed.

(** The index of the sorted frame is the index in ascending order. *)
Lemma sort_index_ascending (df : DataFrame) :
  Permutation (index (sort_index true df)) (index df) /\
  StronglySorted Z.le (index (sort_index true df)).
Proof.
  unfold sort_index. cbn [index].
  set (leb := fun a b : Z * nat => (fst a <=? fst b)%Z).
  set (l := combine (index df) (seq 0 (length (index df)))).
  split.
  - apply perm_trans with (map fst l).
    + apply Permutation_map. apply sort_by_perm.
    + subst l. rewrite map_fst_combine by (rewrite length_seq; reflexivity).
      apply Permutation_refl.
  - apply StronglySorted_map.
    assert (Hs : StronglySorted (fun a b => leb a b = true) (sort_by leb l)).
    { apply sort_by_sorted; unfold leb; intros; lia. }
    eapply StronglySorted_weaken; [|exact Hs].
    intros a b H. unfold leb in H. cbv beta. lia.
Qed.

Lemma sort_index_length asc (df : DataFrame) :
  length (index (sort_index asc df)) = length (index df) /\
  forall c v, In (c, v) (cols (sort_index asc df)) -> length v = length (index df).
Proof.
  unfold sort_index. cbn [index cols].
  set (leb := fun a b : Z * nat => if asc then _ else _).
  set (l := combine (index df) (seq 0 (length (index df)))).
  assert (Hlen : length (sort_by leb l) = length (index df)).
  { rewrite (Permutation_length (sort_by_perm leb l)). subst l.
    rewrite length_combine, length_seq. lia. }
  split.
  - rewrite length_map. exact Hlen.
  - intros c v Hin. apply in_map_iff in Hin. destruct Hin as (cv & E & _).
    injection E as _ <-. rewrite length_map. exact Hlen.
Qed.

(** ** Building the frame *)

Lemma dedup_In x l : In x (dedup l) <-> In x l.
Proof.
  induction l as [|y r IH]; simpl; [tauto|].
  rewrite filter_In, IH, negb_true_iff.
  destruct (String.eqb_spec y x) as [->|Hne].
  - split; auto.
  - split.
    + intros [H|[H _]]; auto.
    + intros [H|H]; auto.
Qed.


Lemma dict_get_In {V} k (d : pydict V) v : dict_get k d = Some v -> In (k, v) d.
Proof.
  induction d as [|[k' v'] d IH]; simpl; [discriminate|].
  destruct (String.eqb_spec k k') as [->|Hne].
  - intros H. injection H as ->. left. reflexivity.
  - intros H. right. exact (IH H).
Qed.







(** ** C7: the normalised series *)


(** ** The indicator columns *)

(** Adding the three indicator columns leaves the index and every other
    column as they were, so the metrics step reads the prices the normaliser
    produced. *)
Lemma calculate_indicators_keeps (data : DataFrame) (short long : nat) closes log :
  getitem data "Close" = Ret (map Fin closes) ->
  exists data',
    calculate_indicators data short long log = (Ret data', log) /\
    index data' = index data /\
    forall c, c <> "SMA_Short"%string -> c <> "SMA_Long"%string -> c <> "RSI"%string ->
              getitem data' c = getitem data c.
Proof.
  intros Hclose. unfold calculate_indicators, bind, lift, ret.
  unfold calculate_sma at 1. rewrite Hclose. cbn [obind].
  set (d1 := setitem data "SMA_Short" (rolling_mean short (map Fin closes))).
  assert (H1 : getitem d1 "Close" = Ret (map Fin closes)).
  { unfold getitem, d1, setitem. cbn [cols].
    rewrite dict_get_set_col_other by discriminate.
    apply getitem_Ret in Hclose. rewrite Hclose. reflexivity. }
  unfold calculate_sma. rewrite H1. cbn [obind].
  set (d2 := setitem d1 "SMA_Long" (rolling_mean long (map Fin closes))).
  assert (H2 : getitem d2 "Close" = Ret (map Fin closes)).
  { unfold getitem, d2, setitem. cbn [cols].
    rewrite dict_get_set_col_other by discriminate.
    apply getitem_Ret in H1. rewrite H1. reflexivity. }
  destruct (calculate_rsi_unfold d2 closes rsi_default_window H2) as (rsi & Hrsi & _).
  rewrite Hrsi. eexists. split; [reflexivity|]. split; [reflexivity|].
  intros c N1 N2 N3. unfold getitem, setitem, d2, d1, setitem. cbn [cols].
  rewrite !dict_get_set_col_other by assumption. reflexivity.
Qed.

(** ** Parse failures, for any parsers *)

Lemma mapM_Ret_all {A B} (f : A -> outcome B) l ys :
  mapM f l = Ret ys -> forall x, In x l -> exists y, f x = Ret y.
Proof.
  revert ys. induction l as [|a l IH]; intros ys H x Hx; [contradiction|].
  destruct (mapM_Ret_cons f a l ys H) as (y & ys' & _ & Hy & H').
  destruct Hx as [<-|Hx]; [eauto|exact (IH ys' H' x Hx)].
Qed.

(** A row label that [to_datetime] rejects makes [get_stock_data] raise
    [ValueError], whatever the rest of the body holds. *)
Lemma get_stock_data_rejected_timestamp requests_get to_datetime to_numeric
      api_key symbol data rows log k :
  (forall url params, requests_get url params = Ret data) ->
  dict_get series_key data = Some (Series rows) ->
  In k (index (from_dict rows)) ->
  to_datetime k = None ->
  get_stock_data requests_get to_datetime to_numeric api_key symbol log
  = (Raise ValueError, log).
Proof.
  intros Hreq Hkey Hk Hbad.
  rewrite (get_stock_data_series _ _ _ _ _ data rows log Hreq Hkey). cbv zeta.
  change (index (rename column_names (from_dict rows))) with (index (from_dict rows)).
  destruct (mapM (to_datetime_label to_datetime) (index (from_dict rows)))
    as [idx|e] eqn:Ei.
  - destruct (mapM_Ret_all _ _ _ Ei k Hk) as (t & Ht).
    unfold to_datetime_label in Ht. rewrite Hbad in Ht. discriminate Ht.
  - destruct (mapM_Raise _ _ _ Ei) as (k' & _ & Hk').
    rewrite (to_datetime_label_raises _ _ _ Hk'). reflexivity.
Qed.

(** A field value that [to_numeric] rejects, in a row that is part of the
    frame, makes [get_stock_data] raise; it never returns a frame and it never
    reports the failure on the page. *)
Lemma get_stock_data_rejected_number requests_get to_datetime to_numeric
      api_key symbol data rows log k row c s :
  (forall url params, requests_get url params = Ret data) ->
  dict_get series_key data = Some (Series rows) ->
  In k (index (from_dict rows)) ->
  dict_get k rows = Some row ->
  dict_get c row = Some s ->
  to_numeric s = None ->
  exists e,
    get_stock_data requests_get to_datetime to_numeric api_key symbol log = (Raise e, log) /\
    (e = ValueError \/ e = TypeError).
Proof.
  intros Hreq Hkey Hk Hrow Hc Hbad.
  rewrite (get_stock_data_series _ _ _ _ _ data rows log Hreq Hkey). cbv zeta.
  destruct (mapM (to_datetime_label to_datetime) _) as [idx|e] eqn:Ei.
  2:{ destruct (mapM_Raise _ _ _ Ei) as (k' & _ & Hk').
      rewrite (to_datetime_label_raises _ _ _ Hk'). eauto. }
  set (df0 := rename column_names (from_dict rows)).
  destruct (mapM (to_numeric_column to_numeric (columns df0)) (cols df0))
    as [cs|e] eqn:Ec.
  2:{ destruct (mapM_Raise _ _ _ Ec) as (cv & _ & Hcv).
      destruct (to_numeric_column_raises _ _ _ _ Hcv) as [-> | ->]; eauto. }
  exfalso.
  set (cell := fun k' : string =>
                 match dict_get k' rows with
                 | Some r => dict_get c r
                 | None => None
                 end).
  assert (Hin : In (rename_label column_names c,
                    map cell (index (from_dict rows))) (cols df0)).
  { unfold df0, rename, from_dict. cbn [cols index]. rewrite map_map.
    apply in_map_iff. exists c. split; [reflexivity|].
    apply dedup_In, in_flat_map. exists (k, row).
    split; [exact (dict_get_In _ _ _ Hrow)|].
    simpl. apply in_map_iff. exists (c, s). split; [reflexivity|].
    exact (dict_get_In _ _ _ Hc). }
  destruct (mapM_Ret_all _ _ _ Ec _ Hin) as (y & Hy).
  unfold to_numeric_column in Hy. cbn [fst snd] in Hy.
  destruct (1 <? count_name _ _)%nat; [discriminate Hy|].
  destruct (mapM (to_numeric_cell to_numeric) (map cell (index (from_dict rows))))
    as [v|e] eqn:Ev; [|discriminate Hy].
  assert (Hcell : In (Some s) (map cell (index (from_dict rows)))).
  { apply in_map_iff. exists k. split; [|exact Hk].
    unfold cell. rewrite Hrow. exact Hc. }
  destruct (mapM_Ret_all _ _ _ Ev _ Hcell) as (x & Hx).
  unfold to_numeric_cell in Hx. rewrite Hbad in Hx. discriminate Hx.
Qed.

(** ** The statements at concrete inputs *)






(** The provider's answer to an unknown symbol. *)
Lemma get_stock_data_missing_series_witness :
  text_api_key demo_inputs <> EmptyString /\
  dict_get series_key payload_no_series = None /\
  dashboard (serve payload_no_series) iso_to_datetime decimal_to_numeric demo_inputs []
  = (Ret tt,
     [StError "Could not retrieve data for symbol 'MSFT'. Check the symbol or API key.";
      StInfo "Waiting for valid API key and symbol..."]).
Proof.
  assert (H1 : text_api_key demo_inputs <> EmptyString) by discriminate.
  assert (H2 : forall url params, serve payload_no_series url params = Ret payload_no_series)
    by reflexivity.
  assert (H3 : dict_get series_key payload_no_series = None) by reflexivity.
  split; [exact H1|]. split; [exact H3|].
  exact (proj2 (get_stock_data_missing_series (serve payload_no_series) iso_to_datetime
                  decimal_to_numeric demo_inputs payload_no_series H1 H2 H3)).
Defined.



(** The body with a sixth field: six columns. *)
Lemma get_stock_data_columns_witness :
  dict_get series_key payload_extra_field = Some (Series rows_extra_field) /\
  get_stock_data (serve payload_extra_field) iso_to_datetime decimal_to_numeric
                 "demo" "MSFT" [] = (Ret frame_extra_field, []) /\
  columns frame_extra_field =
    map (rename_label column_names)
        (dedup (flat_map (fun kv => map fst (snd kv)) rows_extra_field)).
Proof.
  assert (H1 : forall url params,
             serve payload_extra_field url params = Ret payload_extra_field)
    by reflexivity.
  assert (H2 : dict_get series_key payload_extra_field = Some (Series rows_extra_field))
    by reflexivity.
  assert (H3 : get_stock_data (serve payload_extra_field) iso_to_datetime
                 decimal_to_numeric "demo" "MSFT" [] = (Ret frame_extra_field, []))
    by (vm_compute; reflexivity).
  split; [exact H2|]. split; [exact H3|].
  exact (proj1 (get_stock_data_columns (serve payload_extra_field) iso_to_datetime
                  decimal_to_numeric "demo" "MSFT" payload_extra_field rows_extra_field
                  frame_extra_field [] [] H1 H2 H3)).
Defined.

(** * Further properties of the indicators *)

(** ** Any cell contents: length and warm-up *)

Lemma diff_from_length xs : forall prev, length (diff_from prev xs) = length xs.
Proof.
  induction xs as [|x r IH]; intros prev; simpl; [reflexivity|].
  rewrite IH. reflexivity.
Qed.

Lemma where_length cond other xs : length (where_ cond other xs) = length xs.
Proof. unfold where_. apply length_map. Qed.

(** Before the window is full the running count is below the window, whatever
    the values are. *)
Lemma roll_mean_loop_warmup values w : forall todo i st j,
  (nobs st <= i)%nat -> (i + j + 1 < w)%nat ->
  nth j (roll_mean_loop values w i st todo) NaN = NaN.
Proof.
  induction todo as [|v rest IH]; intros i st j Hn Hj.
  - destruct j; reflexivity.
  - simpl roll_mean_loop.
    replace (w <=? i)%nat with false by (symmetry; apply Nat.leb_gt; lia).
    assert (Hadd : (nobs (add_mean v st) <= S i)%nat).
    { unfold add_mean. destruct (is_nan v); simpl; lia. }
    destruct j as [|j].
    + simpl nth. unfold calc_mean.
      replace (w <=? nobs (add_mean v st))%nat with false
        by (symmetry; apply Nat.leb_gt; lia).
      reflexivity.
    + simpl nth. apply IH; [exact Hadd|lia].
Qed.

Lemma rolling_mean_warmup w values i :
  (i + 1 < w)%nat -> nth i (rolling_mean w values) NaN = NaN.
Proof.
  intros H. destruct w as [|w]; [lia|]. unfold rolling_mean.
  apply roll_mean_loop_warmup; simpl; lia.
Qed.

(** [calculate_rsi] on any close column: its length and its values in terms
    of the two rolling means. *)
Lemma calculate_rsi_any (data : DataFrame) close w :
  getitem data "Close" = Ret close ->
  let delta := diff close in
  let gain := rolling_mean w (where_ (fun d => fgt d (Fin 0)) (Fin 0) delta) in
  let loss := rolling_mean w (map fneg (where_ (fun d => flt d (Fin 0)) (Fin 0) delta)) in
  exists rsi,
    calculate_rsi data w = Ret rsi /\
    length rsi = length close /\
    forall i, (i < length close)%nat ->
      nth i rsi NaN = rsi_formula (nth i gain NaN) (nth i loss NaN).
Proof.
  intros H delta gain loss. unfold calculate_rsi. rewrite H. cbn [obind].
  fold delta. fold gain. fold loss.
  assert (Ld : length delta = length close) by apply diff_from_length.
  assert (Lg : length gain = length close).
  { unfold gain. rewrite rolling_mean_length, where_length. exact Ld. }
  assert (Ll : length loss = length close).
  { unfold loss. rewrite rolling_mean_length, length_map, where_length. exact Ld. }
  eexists. split; [reflexivity|]. split.
  - rewrite length_map, zip_with_length; congruence.
  - intros i Hi.
    set (h := fun r => fsub (Fin 100) (fdiv (Fin 100) (fadd (Fin 1) r))).
    change NaN with (h NaN) at 1. rewrite map_nth.
    rewrite (zip_with_nth fdiv _ _ i NaN NaN NaN) by lia.
    reflexivity.
Qed.

(** X1.  Whatever the close column holds (finite values, missing values,
    infinities), both indicators are as long as the column and are missing at
    every index before the window is full. *)
Theorem indicators_warmup (data : DataFrame) (close : list fval) (w i : nat) :
  getitem data "Close" = Ret close ->
  exists sma rsi,
    calculate_sma data w = Ret sma /\
    calculate_rsi data w = Ret rsi /\
    length sma = length close /\
    length rsi = length close /\
    ((i + 1 < w)%nat -> nth i sma NaN = NaN /\ nth i rsi NaN = NaN).
Proof.
  intros H.
  destruct (calculate_rsi_any data close w H) as (rsi & Hrun & Hlen & Hnth).
  exists (rolling_mean w close), rsi.
  split; [unfold calculate_sma; rewrite H; reflexivity|].
  split; [exact Hrun|].
  split; [apply rolling_mean_length|].
  split; [exact Hlen|].
  intros Hi. split; [apply rolling_mean_warmup; exact Hi|].
  destruct (Nat.lt_ge_cases i (length close)) as [Hin|Hout].
  - rewrite (Hnth i Hin), rolling_mean_warmup by exact Hi. reflexivity.
  - apply nth_overflow. lia.
Qed.

(** ** The frame after the indicator columns are added *)

Lemma set_col_In {C} c (v : list C) l c' v' :
  In (c', v') (set_col c v l) -> In (c', v') l \/ v' = v.
Proof.
  induction l as [|[k x] l IH]; simpl.
  - intros [E|[]]. injection E as _ <-. right. reflexivity.
  - destruct (String.eqb c k); simpl.
    + intros [E|H]; [injection E as _ <-; right; reflexivity|left; right; exact H].
    + intros [E|H]; [left; left; exact E|].
      destruct (IH H) as [H'|H']; [left; right; exact H'|right; exact H'].
Qed.

Lemma setitem_rectangular {I C} (df : Frame I C) c v :
  rectangular df -> length v = length (index df) -> rectangular (setitem df c v).
Proof.
  intros Hr Hv c' v' Hin. unfold setitem in Hin. cbn [cols index] in *.
  destruct (set_col_In _ _ _ _ _ Hin) as [H| ->]; [exact (Hr c' v' H)|exact Hv].
Qed.

Lemma getitem_setitem_other {I C} (df : Frame I C) c c' v :
  c <> c' -> getitem (setitem df c' v) c = getitem df c.
Proof.
  intros H. unfold getitem, setitem. cbn [cols].
  rewrite dict_get_set_col_other by exact H. reflexivity.
Qed.

Lemma getitem_setitem_same {I C} (df : Frame I C) c v :
  getitem (setitem df c v) c = Ret v.
Proof.
  unfold getitem, setitem. cbn [cols]. rewrite dict_get_set_col_same. reflexivity.
Qed.

(** X2.  On a frame with a close column, of any contents, the indicator step
    raises nothing and puts nothing on the page; it returns the frame with the
    same index and three more columns, which hold the two moving averages and
    the 14-point RSI of the frame it was given; every other column is as it
    was, and if each column had one cell per row this still holds. *)
Theorem calculate_indicators_shape (data : DataFrame) (short long : nat)
        (close : list fval) (log : list st_event) :
  getitem data "Close" = Ret close ->
  exists data',
    calculate_indicators data short long log = (Ret data', log) /\
    index data' = index data /\
    getitem data' "SMA_Short" = calculate_sma data short /\
    getitem data' "SMA_Long" = calculate_sma data long /\
    getitem data' "RSI" = calculate_rsi data rsi_default_window /\
    (forall c, c <> "SMA_Short"%string -> c <> "SMA_Long"%string -> c <> "RSI"%string ->
               getitem data' c = getitem data c) /\
    (rectangular data -> rectangular data').
Proof.
  intros Hclose.
  destruct (calculate_rsi_any data close rsi_default_window Hclose)
    as (rsi & Hrsi & Lrsi & _).
  set (s := rolling_mean short close).
  set (l := rolling_mean long close).
  assert (Es : calculate_sma data short = Ret s)
    by (unfold calculate_sma; rewrite Hclose; reflexivity).
  assert (El : calculate_sma data long = Ret l)
    by (unfold calculate_sma; rewrite Hclose; reflexivity).
  set (d1 := setitem data "SMA_Short" s).
  set (d2 := setitem d1 "SMA_Long" l).
  assert (H1 : getitem d1 "Close" = Ret close).
  { unfold d1. rewrite getitem_setitem_other by discriminate. exact Hclose. }
  assert (H2 : getitem d2 "Close" = Ret close).
  { unfold d2. rewrite getitem_setitem_other by discriminate. exact H1. }
  assert (El1 : calculate_sma d1 long = Ret l)
    by (unfold calculate_sma; rewrite H1; reflexivity).
  assert (Ersi2 : calculate_rsi d2 rsi_default_window = Ret rsi).
  { unfold calculate_rsi in Hrsi |- *. rewrite Hclose in Hrsi. rewrite H2. exact Hrsi. }
  exists (setitem d2 "RSI" rsi).
  split.
  { unfold calculate_indicators, bind, lift, ret. rewrite Es. fold d1.
    rewrite El1. fold d2. rewrite Ersi2. reflexivity. }
  split; [reflexivity|].
  split.
  { rewrite Es. rewrite getitem_setitem_other by discriminate.
    unfold d2. rewrite getitem_setitem_other by discriminate.
    apply getitem_setitem_same. }
  split.
  { rewrite El. rewrite getitem_setitem_other by discriminate.
    apply getitem_setitem_same. }
  split; [rewrite Hrsi; apply getitem_setitem_same|].
  split.
  { intros c N1 N2 N3. unfold d2, d1. rewrite !getitem_setitem_other by assumption.
    reflexivity. }
  intros Hr.
  assert (Lc : length close = length (index data)).
  { apply getitem_Ret in Hclose. exact (Hr _ _ (dict_get_In _ _ _ Hclose)). }
  apply setitem_rectangular; [apply setitem_rectangular; [apply setitem_rectangular|]|].
  - exact Hr.
  - unfold s. rewrite rolling_mean_length. exact Lc.
  - unfold l. rewrite rolling_mean_length. exact Lc.
  - cbn [index setitem d2 d1]. rewrite Lrsi. exact Lc.
Qed.

(** ** Missing closes *)












(** ** Bounds and trends *)











(** * Further properties of the metrics step *)

Lemma iloc_row_cell (data : DataFrame) c col k :
  dict_get c (cols data) = Some col ->
  (1 <= k <= length (index data))%nat ->
  obind (iloc_row data k) (fun row => row_get row c)
  = Ret (nth (length (index data) - k) col NaN).
Proof.
  intros Hc Hk. unfold iloc_row.
  replace (length (index data) <? k)%nat with false by (symmetry; apply Nat.ltb_ge; lia).
  cbn [obind]. unfold row_get.
  rewrite (dict_get_map (fun v => nth (length (index data) - k) v NaN)), Hc.
  reflexivity.
Qed.

(** On a frame of at least two rows with close, high and low columns, of any
    contents, the metrics step returns normally and shows three metrics. *)
Lemma latest_metrics_run (symbol : string) (data : DataFrame)
      (close high low : list fval) (log : list st_event) :
  getitem data "Close" = Ret close ->
  getitem data "High" = Ret high ->
  getitem data "Low" = Ret low ->
  (2 <= length (index data))%nat ->
  let n := length (index data) in
  let latest_close := nth (n - 1) close NaN in
  let prev_close := nth (n - 2) close NaN in
  let price_change := fsub latest_close prev_close in
  latest_metrics symbol data log =
    (Ret tt,
     log ++ [StMetric ("Last Price (" ++ symbol ++ ")") latest_close
                      (Some (price_change,
                             fmul (fdiv price_change prev_close) (Fin 100)));
             StMetric "Day High" (series_max high) None;
             StMetric "Day Low" (series_min low) None]).
Proof.
  intros Hc Hh Hl Hn n latest_close prev_close price_change.
  apply getitem_Ret in Hc.
  pose proof (iloc_row_cell data "Close" close 1 Hc ltac:(lia)) as R1.
  pose proof (iloc_row_cell data "Close" close 2 Hc ltac:(lia)) as R2.
  unfold latest_metrics, bind, lift, emit.
  destruct (iloc_row data 1) as [row1|e1]; [|discriminate R1].
  destruct (iloc_row data 2) as [row2|e2]; [|discriminate R2].
  cbn [obind] in R1, R2. rewrite R2, R1, Hh, Hl.
  rewrite <- !app_assoc. reflexivity.
Qed.


(** The extremum of a column with missing cells, from any starting value. *)
Lemma series_max_cells_from os : forall a,
  exists r,
    fold_left (fun acc x =>
                 if is_nan x then acc
                 else if is_nan acc then x
                 else if fgt x acc then x else acc) (map cell_of os) (cell_of a)
    = cell_of r /\
    (r = None -> a = None /\ forall x, ~ In (Some x) os) /\
    (forall m, r = Some m ->
               (a = Some m \/ In (Some m) os) /\
               (forall x, a = Some x -> x <= m) /\
               (forall x, In (Some x) os -> x <= m)).
Proof.
  induction os as [|o os IH]; intros a.
  - exists a. split; [reflexivity|]. split.
    + intros ->. split; [reflexivity|]. intros x [].
    + intros m ->. split; [left; reflexivity|]. split.
      * intros x E. injection E as ->. lra.
      * intros x [].
  - simpl fold_left. destruct o as [x|].
    + (* a present value *)
      assert (Hstep : exists b,
                 (if is_nan (cell_of (Some x)) then cell_of a
                  else if is_nan (cell_of a) then cell_of (Some x)
                       else if fgt (cell_of (Some x)) (cell_of a)
                            then cell_of (Some x) else cell_of a) = cell_of (Some b) /\
                 (b = x \/ a = Some b) /\ x <= b /\ (forall y, a = Some y -> y <= b)).
      { destruct a as [y|]; simpl.
        - destruct (Qlt_bool y x) eqn:E.
          + apply Qlt_bool_iff in E. exists x. split; [reflexivity|].
            split; [left; reflexivity|]. split; [lra|].
            intros z Ez. injection Ez as <-. lra.
          + apply Qlt_bool_false in E. exists y. split; [reflexivity|].
            split; [right; reflexivity|]. split; [exact E|].
            intros z Ez. injection Ez as <-. lra.
        - exists x. split; [reflexivity|]. split; [left; reflexivity|].
          split; [lra|]. intros z Ez. discriminate Ez. }
      destruct Hstep as (b & Eb & Hb & Hxb & Hab). rewrite Eb.
      destruct (IH (Some b)) as (r & Er & Hnone & Hsome).
      exists r. split; [exact Er|]. split.
      * intros Hr. destruct (Hnone Hr) as [Hbad _]. discriminate Hbad.
      * intros m Hm. destruct (Hsome m Hm) as (Hin & Hle & Hall).
        pose proof (Hle b eq_refl) as Hbm.
        split; [|split].
        -- destruct Hin as [E|Hin]; [|right; right; exact Hin].
           injection E as <-.
           destruct Hb as [-> | ->]; [right; left; reflexivity|left; reflexivity].
        -- intros y Ey. specialize (Hab y Ey). lra.
        -- intros y [E|Hy]; [injection E as <-; lra|exact (Hall y Hy)].
    + (* a missing value is skipped *)
      simpl. destruct (IH a) as (r & Er & Hnone & Hsome).
      exists r. split; [exact Er|]. split.
      * intros Hr. destruct (Hnone Hr) as [Ha Hno]. split; [exact Ha|].
        intros x [E|Hx]; [discriminate E|exact (Hno x Hx)].
      * intros m Hm. destruct (Hsome m Hm) as (Hin & Hle & Hall).
        split; [|split].
        -- destruct Hin as [E|Hin]; [left; exact E|right; right; exact Hin].
        -- exact Hle.
        -- intros y [E|Hy]; [discriminate E|exact (Hall y Hy)].
Qed.

Lemma series_min_cells_from os : forall a,
  exists r,
    fold_left (fun acc x =>
                 if is_nan x then acc
                 else if is_nan acc then x
                 else if flt x acc then x else acc) (map cell_of os) (cell_of a)
    = cell_of r /\
    (r = None -> a = None /\ forall x, ~ In (Some x) os) /\
    (forall m, r = Some m ->
               (a = Some m \/ In (Some m) os) /\
               (forall x, a = Some x -> m <= x) /\
               (forall x, In (Some x) os -> m <= x)).
Proof.
  induction os as [|o os IH]; intros a.
  - exists a. split; [reflexivity|]. split.
    + intros ->. split; [reflexivity|]. intros x [].
    + intros m ->. split; [left; reflexivity|]. split.
      * intros x E. injection E as ->. lra.
      * intros x [].
  - simpl fold_left. destruct o as [x|].
    + assert (Hstep : exists b,
                 (if is_nan (cell_of (Some x)) then cell_of a
                  else if is_nan (cell_of a) then cell_of (Some x)
                       else if flt (cell_of (Some x)) (cell_of a)
                            then cell_of (Some x) else cell_of a) = cell_of (Some b) /\
                 (b = x \/ a = Some b) /\ b <= x /\ (forall y, a = Some y -> b <= y)).
      { destruct a as [y|]; simpl.
        - unfold flt. simpl. destruct (Qlt_bool x y) eqn:E.
          + apply Qlt_bool_iff in E. exists x. split; [reflexivity|].
            split; [left; reflexivity|]. split; [lra|].
            intros z Ez. injection Ez as <-. lra.
          + apply Qlt_bool_false in E. exists y. split; [reflexivity|].
            split; [right; reflexivity|]. split; [exact E|].
            intros z Ez. injection Ez as <-. lra.
        - exists x. split; [reflexivity|]. split; [left; reflexivity|].
          split; [lra|]. intros z Ez. discriminate Ez. }
      destruct Hstep as (b & Eb & Hb & Hxb & Hab). rewrite Eb.
      destruct (IH (Some b)) as (r & Er & Hnone & Hsome).
      exists r. split; [exact Er|]. split.
      * intros Hr. destruct (Hnone Hr) as [Hbad _]. discriminate Hbad.
      * intros m Hm. destruct (Hsome m Hm) as (Hin & Hle & Hall).
        pose proof (Hle b eq_refl) as Hbm.
        split; [|split].
        -- destruct Hin as [E|Hin]; [|right; right; exact Hin].
           injection E as <-.
           destruct Hb as [-> | ->]; [right; left; reflexivity|left; reflexivity].
        -- intros y Ey. specialize (Hab y Ey). lra.
        -- intros y [E|Hy]; [injection E as <-; lra|exact (Hall y Hy)].
    + simpl. destruct (IH a) as (r & Er & Hnone & Hsome).
      exists r. split; [exact Er|]. split.
      * intros Hr. destruct (Hnone Hr) as [Ha Hno]. split; [exact Ha|].
        intros x [E|Hx]; [discriminate E|exact (Hno x Hx)].
      * intros m Hm. destruct (Hsome m Hm) as (Hin & Hle & Hall).
        split; [|split].
        -- destruct Hin as [E|Hin]; [left; exact E|right; right; exact Hin].
        -- exact Hle.
        -- intros y [E|Hy]; [discriminate E|exact (Hall y Hy)].
Qed.

(** X7.  The day high and the day low skip the bars whose high or low is
    missing: the day high shown is the largest high that is present, the day
    low the smallest low that is present, and each is missing only when the
    whole column is missing. *)
Theorem latest_metrics_skips_missing (symbol : string) (data : DataFrame)
        (close : list fval) (highs lows : list (option Q)) (log : list st_event) :
  getitem data "Close" = Ret close ->
  getitem data "High" = Ret (map cell_of highs) ->
  getitem data "Low" = Ret (map cell_of lows) ->
  (2 <= length (index data))%nat ->
  exists last_price day_high day_low,
    latest_metrics symbol data log =
      (Ret tt,
       log ++ [last_price;
               StMetric "Day High" (cell_of day_high) None;
               StMetric "Day Low" (cell_of day_low) None]) /\
    (day_high = None <-> forall x, ~ In (Some x) highs) /\
    (forall m, day_high = Some m ->
               In (Some m) highs /\ forall x, In (Some x) highs -> x <= m) /\
    (day_low = None <-> forall x, ~ In (Some x) lows) /\
    (forall m, day_low = Some m ->
               In (Some m) lows /\ forall x, In (Some x) lows -> m <= x).
Proof.
  intros Hc Hh Hl Hn.
  destruct (series_max_cells_from highs None) as (hi & Ehi & Hhi_none & Hhi).
  destruct (series_min_cells_from lows None) as (lo & Elo & Hlo_none & Hlo).
  eexists _, hi, lo. split.
  { assert (Mhi : series_max (map cell_of highs) = cell_of hi) by exact Ehi.
    assert (Mlo : series_min (map cell_of lows) = cell_of lo) by exact Elo.
    rewrite (latest_metrics_run symbol data close _ _ log Hc Hh Hl Hn).
    rewrite Mhi, Mlo. reflexivity. }
  split; [|split; [|split]].
  - split.
    + intros E. exact (proj2 (Hhi_none E)).
    + intros Hno. destruct hi as [m|]; [|reflexivity].
      destruct (Hhi m eq_refl) as ([E|Hin] & _); [discriminate E|].
      exfalso. exact (Hno m Hin).
  - intros m E. destruct (Hhi m E) as ([E'|Hin] & _ & Hall); [discriminate E'|].
    split; assumption.
  - split.
    + intros E. exact (proj2 (Hlo_none E)).
    + intros Hno. destruct lo as [m|]; [|reflexivity].
      destruct (Hlo m eq_refl) as ([E|Hin] & _); [discriminate E|].
      exfalso. exact (Hno m Hin).
  - intros m E. destruct (Hlo m E) as ([E'|Hin] & _ & Hall); [discriminate E'|].
    split; assumption.
Qed.

(** * Further properties of fetching and normalising *)

(** ** The paths that return no data *)

(** X8.  When the HTTP exchange fails with a request exception,
    [get_stock_data] catches it, reports "API request failed: ..." with the
    exception's text and returns the empty frame; the script then shows the
    waiting notice and ends normally, with nothing else on the page. *)
Theorem get_stock_data_request_failed
        (requests_get : string -> pydict string -> outcome payload)
        (to_datetime : string -> option Z) (to_numeric : string -> option fval)
        (inp : Inputs) (e : string) :
  text_api_key inp <> EmptyString ->
  (forall url params, requests_get url params = Raise (RequestException e)) ->
  (forall api_key symbol log,
      get_stock_data requests_get to_datetime to_numeric api_key symbol log
      = (Ret empty_frame, log ++ [StError ("API request failed: " ++ e)])) /\
  dashboard requests_get to_datetime to_numeric inp [] =
    (Ret tt, [StError ("API request failed: " ++ e);
              StInfo "Waiting for valid API key and symbol..."]).
Proof.
  intros Hkey Hreq.
  assert (Hget : forall api_key symbol log,
             get_stock_data requests_get to_datetime to_numeric api_key symbol log
             = (Ret empty_frame, log ++ [StError ("API request failed: " ++ e)])).
  { intros api_key symbol log. unfold get_stock_data, try_request, bind, lift.
    rewrite Hreq. reflexivity. }
  split; [exact Hget|].
  unfold dashboard.
  destruct (String.eqb_spec (text_api_key inp) "") as [E|_]; [contradiction|].
  unfold main_content.
  unfold bind at 1. unfold ret at 1. unfold bind at 1.
  rewrite Hget. reflexivity.
Qed.

(** With no API key entered the script shows the warning and stops:
    whatever the HTTP exchange and the parsers would do, no request is made
    and nothing else is put on the page. *)
Theorem dashboard_no_api_key
        (requests_get : string -> pydict string -> outcome payload)
        (to_datetime : string -> option Z) (to_numeric : string -> option fval)
        (inp : Inputs) (log : list st_event) :
  text_api_key inp = EmptyString ->
  dashboard requests_get to_datetime to_numeric inp log =
    (Raise StopException,
     log ++ [StWarning "Please enter your Alpha Vantage API key in the sidebar to start."]).
Proof.
  intros H. unfold dashboard. rewrite H. reflexivity.
Qed.



(** ** The shape of every returned frame *)

(** What a returned frame can be: the empty frame of the two reporting paths,
    or the sorted frame of the parsed labels and columns. *)
Lemma get_stock_data_returns requests_get to_datetime to_numeric api_key symbol
      log df log' :
  get_stock_data requests_get to_datetime to_numeric api_key symbol log = (Ret df, log') ->
  df = empty_frame \/
  exists rows idx cs,
    mapM (to_datetime_label to_datetime) (index (from_dict rows)) = Ret idx /\
    mapM (to_numeric_column to_numeric (columns (rename column_names (from_dict rows))))
         (cols (rename column_names (from_dict rows))) = Ret cs /\
    df = sort_index true (MkFrame idx cs).
Proof.
  unfold get_stock_data, try_request, bind, lift, ret, emit, raise.
  destruct (requests_get _ _) as [data|e].
  - destruct (dict_get series_key data) as [[rows|note]|].
    + cbv zeta.
      change (index (rename column_names (from_dict rows))) with (index (from_dict rows)).
      destruct (mapM (to_datetime_label to_datetime) (index (from_dict rows)))
        as [idx|e] eqn:Ei.
      * destruct (mapM (to_numeric_column to_numeric _) _) as [cs|e] eqn:Ec.
        -- intros H. injection H as <- _. right. exists rows, idx, cs. auto.
        -- destruct e; intros H; try discriminate H.
           destruct (mapM_Raise _ _ _ Ec) as (cv & _ & Hcv).
           destruct (to_numeric_column_raises _ _ _ _ Hcv); discriminate.
      * destruct e; intros H; try discriminate H.
        destruct (mapM_Raise _ _ _ Ei) as (k & _ & Hk).
        pose proof (to_datetime_label_raises _ _ _ Hk). discriminate.
    + intros H. discriminate H.
    + intros H. injection H as <- _. left. reflexivity.
  - destruct e; intros H; try discriminate H.
    injection H as <- _. left. reflexivity.
Qed.

Lemma count_name_one_NoDup names :
  (forall c, In c names -> (count_name c names <= 1)%nat) -> NoDup names.
Proof.
  induction names as [|x l IH]; intros H; constructor.
  - intros Hin. specialize (H x (or_introl eq_refl)).
    unfold count_name in H. simpl in H. rewrite String.eqb_refl in H. simpl in H.
    assert (1 <= length (filter (String.eqb x) l))%nat.
    { clear H IH. induction l as [|y l IHl]; [contradiction|].
      simpl. destruct (String.eqb_spec x y) as [->|Hne]; simpl; [lia|].
      destruct Hin as [E|Hin]; [congruence|exact (IHl Hin)]. }
    lia.
  - apply IH. intros c Hc. specialize (H c (or_intror Hc)).
    unfold count_name in *. simpl in H. destruct (String.eqb c x); simpl in H; lia.
Qed.

(** X10.  Whatever the exchange answers and whatever the parsers accept,
    every frame that [get_stock_data] returns has one cell per row in every
    column, pairwise distinct column labels, and an index in ascending
    order. *)
Theorem get_stock_data_frame_shape
        (requests_get : string -> pydict string -> outcome payload)
        (to_datetime : string -> option Z) (to_numeric : string -> option fval)
        (api_key symbol : string) (log log' : list st_event) (df : DataFrame) :
  get_stock_data requests_get to_datetime to_numeric api_key symbol log = (Ret df, log') ->
  rectangular df /\ NoDup (columns df) /\ StronglySorted Z.le (index df).
Proof.
  intros H.
  destruct (get_stock_data_returns _ _ _ _ _ _ _ _ H)
    as [-> | (rows & idx & cs & _ & Hcs & ->)].
  - split; [intros c v []|]. split; constructor.
  - destruct (sort_index_length true (MkFrame idx cs)) as (Lidx & Lcols).
    split; [|split].
    + intros c v Hin. rewrite Lidx. exact (Lcols c v Hin).
    + rewrite sort_index_columns. unfold columns at 1. cbn [cols].
      rewrite (to_numeric_columns_names _ _ _ _ Hcs).
      apply count_name_one_NoDup. intros c Hc.
      apply in_map_iff in Hc. destruct Hc as (cv & <- & Hcv).
      destruct (mapM_Ret_all _ _ _ Hcs cv Hcv) as (y & Hy).
      unfold to_numeric_column in Hy.
      destruct (Nat.ltb_spec 1 (count_name (fst cv)
                  (columns (rename column_names (from_dict rows)))))
        as [Hdup|Hone]; [discriminate Hy|exact Hone].
    + exact (proj2 (sort_index_ascending (MkFrame idx cs))).
Qed.

(** ** Where each value of the body ends up *)

Lemma mapM_nth {A B} (f : A -> outcome B) l : forall ys j a,
  mapM f l = Ret ys -> nth_error l j = Some a ->
  exists b, f a = Ret b /\ nth_error ys j = Some b.
Proof.
  induction l as [|x l IH]; intros ys j a H Hj.
  - destruct j; discriminate Hj.
  - destruct (mapM_Ret_cons f x l ys H) as (y & ys' & -> & Hy & H').
    destruct j as [|j].
    + injection Hj as <-. exists y. split; [exact Hy|reflexivity].
    + exact (IH ys' j a H' Hj).
Qed.

Lemma count_name_cons_same c names :
  count_name c (c :: names) = S (count_name c names).
Proof. unfold count_name. simpl. rewrite String.eqb_refl. reflexivity. Qed.

Lemma count_name_In c names : In c names -> (1 <= count_name c names)%nat.
Proof.
  unfold count_name. induction names as [|x l IH]; intros H; [contradiction|].
  simpl. destruct (String.eqb_spec c x) as [->|Hne]; simpl; [lia|].
  destruct H as [E|H]; [congruence|exact (IH H)].
Qed.

Lemma count_name_cons_le c x names :
  (count_name c names <= count_name c (x :: names))%nat.
Proof. unfold count_name. simpl. destruct (String.eqb c x); simpl; lia. Qed.

(** The column a label selects, when the label is carried once. *)
Lemma dict_get_unique {C} (l : list (string * list C)) : forall m c v,
  nth_error l m = Some (c, v) ->
  (count_name c (map fst l) <= 1)%nat ->
  dict_get c l = Some v.
Proof.
  induction l as [|[k x] l IH]; intros m c v Hm Hcount.
  - destruct m; discriminate Hm.
  - simpl. destruct (String.eqb_spec c k) as [->|Hne].
    + destruct m as [|m]; [injection Hm as <-; reflexivity|].
      exfalso. simpl in Hm, Hcount. rewrite count_name_cons_same in Hcount.
      assert (In k (map fst l)).
      { apply in_map_iff. exists (k, v). split; [reflexivity|].
        exact (nth_error_In _ _ Hm). }
      pose proof (count_name_In _ _ H). lia.
    + destruct m as [|m]; [injection Hm as E _; congruence|].
      apply (IH m); [exact Hm|].
      simpl in Hcount. pose proof (count_name_cons_le c k (map fst l)). lia.
Qed.

Lemma combine_seq_In {A} (l : list A) : forall a j x,
  nth_error l j = Some x -> In (x, (a + j)%nat) (combine l (seq a (length l))).
Proof.
  induction l as [|y l IH]; intros a j x Hj.
  - destruct j; discriminate Hj.
  - destruct j as [|j]; simpl.
    + injection Hj as <-. left. f_equal. lia.
    + right. replace (a + S j)%nat with (S a + j)%nat by lia.
      apply IH. exact Hj.
Qed.

Lemma from_dict_field rows k row f s :
  dict_get k rows = Some row -> dict_get f row = Some s ->
  In k (index (from_dict rows)) /\
  In f (dedup (flat_map (fun kv : string * pydict string => map fst (snd kv)) rows)).
Proof.
  intros Hrow Hf.
  pose proof (dict_get_In _ _ _ Hrow) as Hin.
  pose proof (dict_get_In _ _ _ Hf) as Hfin.
  assert (Hname : In f (dedup (flat_map (fun kv : string * pydict string =>
                                           map fst (snd kv)) rows))).
  { apply dedup_In, in_flat_map. exists (k, row). split; [exact Hin|].
    simpl. apply in_map_iff. exists (f, s). split; [reflexivity|exact Hfin]. }
  split; [|exact Hname].
  unfold from_dict. cbn [index]. apply dedup_In, in_flat_map.
  exists f. split; [exact Hname|].
  apply in_map_iff. exists (k, row). split; [reflexivity|].
  apply filter_In. split; [exact Hin|].
  unfold dict_mem. simpl. rewrite Hf. reflexivity.
Qed.

(** X11.  Every value of the body reaches its place: when [get_stock_data]
    returns a frame, then for each bar of the series and each field of that
    bar, the timestamp and the text of the field parse, and the frame has a
    row labelled with that instant whose cell, in the column named by the
    renamed field, is that number. *)
Theorem get_stock_data_cell
        (requests_get : string -> pydict string -> outcome payload)
        (to_datetime : string -> option Z) (to_numeric : string -> option fval)
        (api_key symbol : string) (data : payload) (rows : pydict (pydict string))
        (log log' : list st_event) (df : DataFrame)
        (k : string) (row : pydict string) (f s : string) :
  (forall url params, requests_get url params = Ret data) ->
  dict_get series_key data = Some (Series rows) ->
  get_stock_data requests_get to_datetime to_numeric api_key symbol log = (Ret df, log') ->
  dict_get k rows = Some row ->
  dict_get f row = Some s ->
  exists t x pos col,
    to_datetime k = Some t /\
    to_numeric s = Some x /\
    nth_error (index df) pos = Some t /\
    getitem df (rename_label column_names f) = Ret col /\
    nth_error col pos = Some x.
Proof.
  intros Hreq Hkey Hrun Hrow Hf.
  rewrite (get_stock_data_series _ _ _ _ _ data rows log Hreq Hkey) in Hrun.
  cbv zeta in Hrun.
  set (df0 := rename column_names (from_dict rows)) in *.
  set (idx0 := index (from_dict rows)).
  change (index df0) with idx0 in Hrun.
  destruct (mapM (to_datetime_label to_datetime) idx0) as [idx|e] eqn:Ei;
    [|discriminate Hrun].
  destruct (mapM (to_numeric_column to_numeric (columns df0)) (cols df0))
    as [cs|e] eqn:Ec; [|discriminate Hrun].
  injection Hrun as <- _.
  destruct (from_dict_field rows k row f s Hrow Hf) as (Hk & Hname).
  (* the row of the bar, before sorting *)
  destruct (In_nth_error _ _ Hk) as (j & Hj). fold idx0 in Hj.
  destruct (mapM_nth _ _ _ _ _ Ei Hj) as (t & Ht & Hjt).
  assert (Et : to_datetime k = Some t).
  { unfold to_datetime_label in Ht. destruct (to_datetime k); [|discriminate Ht].
    injection Ht as ->. reflexivity. }
  (* the column of the field *)
  set (names := dedup (flat_map (fun kv : string * pydict string =>
                                   map fst (snd kv)) rows)) in *.
  set (cell := fun (c k' : string) =>
                 match dict_get k' rows with
                 | Some r => dict_get c r
                 | None => None
                 end).
  assert (Hcols0 : cols df0 = map (fun c => (rename_label column_names c,
                                              map (cell c) idx0)) names).
  { unfold df0, rename, from_dict. cbn [cols index]. rewrite map_map. reflexivity. }
  destruct (In_nth_error _ _ Hname) as (m & Hm).
  assert (Hm0 : nth_error (cols df0) m
                = Some (rename_label column_names f, map (cell f) idx0)).
  { rewrite Hcols0. exact (map_nth_error _ _ _ Hm). }
  destruct (mapM_nth _ _ _ _ _ Ec Hm0) as ([c' v'] & Hcol & Hmc).
  unfold to_numeric_column in Hcol. cbn [fst snd] in Hcol.
  destruct (Nat.ltb_spec 1 (count_name (rename_label column_names f) (columns df0)))
    as [Hdup|Hone]; [discriminate Hcol|].
  destruct (mapM (to_numeric_cell to_numeric) (map (cell f) idx0)) as [v|e] eqn:Ev;
    [|discriminate Hcol].
  cbn [obind] in Hcol. injection Hcol as <- <-.
  assert (Hcell : nth_error (map (cell f) idx0) j = Some (Some s)).
  { rewrite (map_nth_error _ _ _ Hj). unfold cell. rewrite Hrow, Hf. reflexivity. }
  destruct (mapM_nth _ _ _ _ _ Ev Hcell) as (x & Hx & Hjx).
  assert (Ex : to_numeric s = Some x).
  { unfold to_numeric_cell in Hx. destruct (to_numeric s); [|discriminate Hx].
    injection Hx as ->. reflexivity. }
  assert (Hget : dict_get (rename_label column_names f) cs = Some v).
  { apply (dict_get_unique cs m); [exact Hmc|].
    rewrite (to_numeric_columns_names _ _ _ _ Ec). exact Hone. }
  (* the same row after sorting *)
  set (leb := fun a b : Z * nat => (fst a <=? fst b)%Z).
  set (order := sort_by leb (combine idx (seq 0 (length idx)))).
  assert (Hpair : In (t, j) order).
  { apply (Permutation_in _ (Permutation_sym (sort_by_perm leb _))).
    exact (combine_seq_In idx 0 j t Hjt). }
  destruct (In_nth_error _ _ Hpair) as (pos & Hpos).
  exists t, x, pos, (map (fun p : Z * nat => nth (snd p) v NaN) order).
  split; [exact Et|]. split; [exact Ex|]. split; [|split].
  - unfold sort_index. cbn [index]. fold leb. fold order.
    rewrite (map_nth_error _ _ _ Hpos). reflexivity.
  - apply getitem_Ret. unfold sort_index. cbn [cols index]. fold leb. fold order.
    rewrite (dict_get_map (fun col : list fval =>
                             map (fun p : Z * nat => nth (snd p) col NaN) order)).
    rewrite Hget. reflexivity.
  - rewrite (map_nth_error _ _ _ Hpos). cbn [snd].
    rewrite (nth_error_nth _ _ NaN Hjx). reflexivity.
Qed.

(** * Further properties of the script *)






(** X13.  When the fetch returns a frame that is not empty but has no close
    column, the first indicator raises [KeyError]: the script ends there and
    nothing of the dashboard is shown. *)
Theorem dashboard_missing_close
        (requests_get : string -> pydict string -> outcome payload)
        (to_datetime : string -> option Z) (to_numeric : string -> option fval)
        (inp : Inputs) (data : DataFrame) (log : list st_event) :
  text_api_key inp <> EmptyString ->
  get_stock_data requests_get to_datetime to_numeric
                 (text_api_key inp) (upper (text_symbol inp)) [] = (Ret data, log) ->
  empty data = false ->
  getitem data "Close" = Raise KeyError ->
  (forall w, calculate_sma data w = Raise KeyError /\
             calculate_rsi data w = Raise KeyError) /\
  dashboard requests_get to_datetime to_numeric inp [] = (Raise KeyError, log).
Proof.
  intros Hkey Hrun Hne Hc. split.
  - intros w. unfold calculate_sma, calculate_rsi. rewrite Hc. split; reflexivity.
  - unfold dashboard.
    destruct (String.eqb_spec (text_api_key inp) "") as [E|_]; [contradiction|].
    unfold main_content. unfold bind at 1. unfold ret at 1.
    unfold bind at 1. rewrite Hrun, Hne. cbn [negb].
    unfold bind at 1. unfold calculate_indicators, bind, lift, calculate_sma.
    rewrite Hc. reflexivity.
Qed.


(** ** The table *)

Lemma combine_seq_nth {A} (l : list A) (d : A) : forall a x p,
  In (x, p) (combine l (seq a (length l))) ->
  (a <= p)%nat /\ nth (p - a) l d = x.
Proof.
  induction l as [|y l IH]; intros a x p Hin; [contradiction|].
  simpl in Hin. destruct Hin as [E|Hin].
  - injection E as <- <-. split; [lia|]. rewrite Nat.sub_diag. reflexivity.
  - destruct (IH (S a) x p Hin) as (Hle & Hnth). split; [lia|].
    replace (p - a)%nat with (S (p - S a)) by lia. exact Hnth.
Qed.

Lemma map_snd_combine {A B} (a : list A) (b : list B) :
  length a = length b -> map snd (combine a b) = b.
Proof.
  revert b. induction a as [|x a IH]; intros [|y b] H; simpl in *;
    try reflexivity; try discriminate.
  rewrite IH by lia. reflexivity.
Qed.

(** Sorting a frame by its index applies one permutation of the row positions
    to the index and to every column. *)
Lemma sort_index_rows (asc : bool) (df : DataFrame) :
  exists order : list nat,
    Permutation order (seq 0 (length (index df))) /\
    index (sort_index asc df) = map (fun p => nth p (index df) 0%Z) order /\
    cols (sort_index asc df) =
      map (fun cv => (fst cv, map (fun p => nth p (snd cv) NaN) order)) (cols df) /\
    StronglySorted (fun a b => if asc then (a <= b)%Z else (b <= a)%Z)
                   (index (sort_index asc df)).
Proof.
  unfold sort_index. cbn [index cols].
  set (leb := fun a b : Z * nat =>
                if asc then (fst a <=? fst b)%Z else (fst b <=? fst a)%Z).
  set (l := combine (index df) (seq 0 (length (index df)))).
  pose proof (sort_by_perm leb l) as Hperm.
  exists (map snd (sort_by leb l)).
  split; [|split; [|split]].
  - apply perm_trans with (map snd l).
    + apply Permutation_map. exact Hperm.
    + unfold l. rewrite map_snd_combine by (rewrite length_seq; reflexivity).
      apply Permutation_refl.
  - rewrite map_map. apply map_ext_in. intros [x p] Hin.
    apply (Permutation_in _ Hperm) in Hin.
    destruct (combine_seq_nth (index df) 0%Z 0 x p Hin) as (_ & Hnth).
    rewrite Nat.sub_0_r in Hnth. simpl. symmetry. exact Hnth.
  - apply map_ext. intros [c v]. simpl. rewrite map_map. reflexivity.
  - apply StronglySorted_map.
    assert (Hs : StronglySorted (fun a b => leb a b = true) (sort_by leb l)).
    { apply sort_by_sorted; unfold leb; destruct asc; intros; lia. }
    eapply StronglySorted_weaken; [|exact Hs].
    intros a b H. unfold leb in H. cbv beta. destruct asc; lia.
Qed.

(** X15.  The table at the bottom of the page shows the frame newest first:
    its index is in descending order, and it is the frame with one
    permutation of the row positions applied to the index and to every
    column, so that each row keeps its cells. *)
Theorem data_table_descending (data : DataFrame) (log : list st_event) :
  exists order : list nat,
    data_table data log =
      (Ret tt,
       log ++ [StDataframe
                 (map (fun p => nth p (index data) 0%Z) order)
                 (map (fun cv => (fst cv, map (fun p => nth p (snd cv) NaN) order))
                      (cols data))]) /\
    Permutation order (seq 0 (length (index data))) /\
    StronglySorted (fun a b => (b <= a)%Z) (map (fun p => nth p (index data) 0%Z) order).
Proof.
  destruct (sort_index_rows false data) as (order & Hperm & Hidx & Hcols & Hsorted).
  exists order. split; [|split].
  - unfold data_table, emit. cbv zeta. rewrite Hidx, Hcols. reflexivity.
  - exact Hperm.
  - rewrite <- Hidx. exact Hsorted.
Qed.

(** * The indicators never look ahead *)

Lemma roll_mean_loop_prefix vs ys w : forall todo i st j,
  (i + length todo = length vs)%nat ->
  (j < length todo)%nat ->
  nth j (roll_mean_loop (vs ++ ys) w i st (todo ++ ys)) NaN
  = nth j (roll_mean_loop vs w i st todo) NaN.
Proof.
  induction todo as [|v rest IH]; intros i st j Hlen Hj; [simpl in Hj; lia|].
  simpl in Hlen. simpl app. simpl roll_mean_loop.
  rewrite (app_nth1 vs ys NaN) by lia.
  destruct j as [|j]; [reflexivity|].
  simpl nth. simpl in Hj. apply IH; lia.
Qed.

Lemma rolling_mean_prefix w vs ys i :
  (i < length vs)%nat ->
  nth i (rolling_mean w (vs ++ ys)) NaN = nth i (rolling_mean w vs) NaN.
Proof.
  intros Hi. destruct w as [|w].
  - rewrite !rolling_mean_zero. reflexivity.
  - unfold rolling_mean. apply roll_mean_loop_prefix; simpl; lia.
Qed.

Lemma last_cons_indep {A} (x : A) l d d' : last (x :: l) d = last (x :: l) d'.
Proof.
  revert x. induction l as [|y l IH]; intros x; [reflexivity|].
  change (last (y :: l) d = last (y :: l) d'). apply IH.
Qed.

Lemma diff_from_app xs ys : forall prev,
  diff_from prev (xs ++ ys) = diff_from prev xs ++ diff_from (last xs prev) ys.
Proof.
  induction xs as [|x r IH]; intros prev; [reflexivity|].
  simpl app. simpl diff_from. rewrite IH. f_equal. f_equal.
  destruct r as [|y r]; [reflexivity|].
  change (last (x :: y :: r) prev) with (last (y :: r) prev).
  f_equal. apply last_cons_indep.
Qed.

(** X16.  Neither indicator looks ahead: its value at an index depends only
    on the closes up to that index.  When bars are appended to a series, of
    any contents, the moving average and the RSI at every index of the
    original series stay exactly as they were. *)
Theorem indicators_no_lookahead (data data' : DataFrame) (close more : list fval)
        (w i : nat) :
  getitem data "Close" = Ret close ->
  getitem data' "Close" = Ret (close ++ more) ->
  (i < length close)%nat ->
  exists sma sma' rsi rsi',
    calculate_sma data w = Ret sma /\
    calculate_sma data' w = Ret sma' /\
    calculate_rsi data w = Ret rsi /\
    calculate_rsi data' w = Ret rsi' /\
    nth i sma' NaN = nth i sma NaN /\
    nth i rsi' NaN = nth i rsi NaN.
Proof.
  intros Hc Hc' Hi.
  destruct (calculate_rsi_any data close w Hc) as (rsi & Hrsi & _ & Hnth).
  destruct (calculate_rsi_any data' (close ++ more) w Hc') as (rsi' & Hrsi' & _ & Hnth').
  exists (rolling_mean w close), (rolling_mean w (close ++ more)), rsi, rsi'.
  split; [unfold calculate_sma; rewrite Hc; reflexivity|].
  split; [unfold calculate_sma; rewrite Hc'; reflexivity|].
  split; [exact Hrsi|]. split; [exact Hrsi'|].
  split; [apply rolling_mean_prefix; exact Hi|].
  rewrite (Hnth i Hi), (Hnth' i) by (rewrite length_app; lia).
  unfold diff. rewrite diff_from_app. unfold where_. rewrite !map_app.
  rewrite !rolling_mean_prefix
    by (rewrite ?length_map, diff_from_length; exact Hi).
  reflexivity.
Qed.

(** * Bars that lack a field *)

Lemma to_numeric_cell_Ret to_numeric c x :
  to_numeric_cell to_numeric c = Ret x -> x = numeric_of to_numeric c.
Proof.
  unfold to_numeric_cell, numeric_of. destruct c as [s|].
  - destruct (to_numeric s); [|discriminate]. intros H. injection H as ->. reflexivity.
  - intros H. injection H as <-. reflexivity.
Qed.

(** The cell of the returned frame for a row label of the built frame and a
    field name of the body. *)
Lemma get_stock_data_cell_at
      (requests_get : string -> pydict string -> outcome payload)
      (to_datetime : string -> option Z) (to_numeric : string -> option fval)
      (api_key symbol : string) (data : payload) (rows : pydict (pydict string))
      (log log' : list st_event) (df : DataFrame) (k f : string) :
  (forall url params, requests_get url params = Ret data) ->
  dict_get series_key data = Some (Series rows) ->
  get_stock_data requests_get to_datetime to_numeric api_key symbol log = (Ret df, log') ->
  In k (index (from_dict rows)) ->
  In f (dedup (flat_map (fun kv : string * pydict string => map fst (snd kv)) rows)) ->
  exists t pos col,
    to_datetime k = Some t /\
    nth_error (index df) pos = Some t /\
    getitem df (rename_label column_names f) = Ret col /\
    nth_error col pos
    = Some (numeric_of to_numeric
              match dict_get k rows with
              | Some r => dict_get f r
              | None => None
              end).
Proof.
  intros Hreq Hkey Hrun Hk Hname.
  rewrite (get_stock_data_series _ _ _ _ _ data rows log Hreq Hkey) in Hrun.
  cbv zeta in Hrun.
  set (df0 := rename column_names (from_dict rows)) in *.
  set (idx0 := index (from_dict rows)) in *.
  change (index df0) with idx0 in Hrun.
  destruct (mapM (to_datetime_label to_datetime) idx0) as [idx|e] eqn:Ei;
    [|discriminate Hrun].
  destruct (mapM (to_numeric_column to_numeric (columns df0)) (cols df0))
    as [cs|e] eqn:Ec; [|discriminate Hrun].
  injection Hrun as <- _.
  destruct (In_nth_error _ _ Hk) as (j & Hj).
  destruct (mapM_nth _ _ _ _ _ Ei Hj) as (t & Ht & Hjt).
  assert (Et : to_datetime k = Some t).
  { unfold to_datetime_label in Ht. destruct (to_datetime k); [|discriminate Ht].
    injection Ht as ->. reflexivity. }
  set (names := dedup (flat_map (fun kv : string * pydict string =>
                                   map fst (snd kv)) rows)) in *.
  set (cell := fun (c k' : string) =>
                 match dict_get k' rows with
                 | Some r => dict_get c r
                 | None => None
                 end).
  assert (Hcols0 : cols df0 = map (fun c => (rename_label column_names c,
                                              map (cell c) idx0)) names).
  { unfold df0, rename, from_dict. cbn [cols index]. rewrite map_map. reflexivity. }
  destruct (In_nth_error _ _ Hname) as (m & Hm).
  assert (Hm0 : nth_error (cols df0) m
                = Some (rename_label column_names f, map (cell f) idx0)).
  { rewrite Hcols0. exact (map_nth_error _ _ _ Hm). }
  destruct (mapM_nth _ _ _ _ _ Ec Hm0) as ([c' v'] & Hcol & Hmc).
  unfold to_numeric_column in Hcol. cbn [fst snd] in Hcol.
  destruct (Nat.ltb_spec 1 (count_name (rename_label column_names f) (columns df0)))
    as [Hdup|Hone]; [discriminate Hcol|].
  destruct (mapM (to_numeric_cell to_numeric) (map (cell f) idx0)) as [v|e] eqn:Ev;
    [|discriminate Hcol].
  cbn [obind] in Hcol. injection Hcol as <- <-.
  assert (Hcell : nth_error (map (cell f) idx0) j = Some (cell f k))
    by exact (map_nth_error _ _ _ Hj).
  destruct (mapM_nth _ _ _ _ _ Ev Hcell) as (x & Hx & Hjx).
  apply to_numeric_cell_Ret in Hx. subst x.
  assert (Hget : dict_get (rename_label column_names f) cs = Some v).
  { apply (dict_get_unique cs m); [exact Hmc|].
    rewrite (to_numeric_columns_names _ _ _ _ Ec). exact Hone. }
  set (leb := fun a b : Z * nat => (fst a <=? fst b)%Z).
  set (order := sort_by leb (combine idx (seq 0 (length idx)))).
  assert (Hpair : In (t, j) order).
  { apply (Permutation_in _ (Permutation_sym (sort_by_perm leb _))).
    exact (combine_seq_In idx 0 j t Hjt). }
  destruct (In_nth_error _ _ Hpair) as (pos & Hpos).
  exists t, pos, (map (fun p : Z * nat => nth (snd p) v NaN) order).
  split; [exact Et|]. split; [|split].
  - unfold sort_index. cbn [index]. fold leb. fold order.
    rewrite (map_nth_error _ _ _ Hpos). reflexivity.
  - apply getitem_Ret. unfold sort_index. cbn [cols index]. fold leb. fold order.
    rewrite (dict_get_map (fun col : list fval =>
                             map (fun p : Z * nat => nth (snd p) col NaN) order)).
    rewrite Hget. reflexivity.
  - rewrite (map_nth_error _ _ _ Hpos). cbn [snd].
    rewrite (nth_error_nth _ _ NaN Hjx). reflexivity.
Qed.

(** X17.  A bar that lacks a field which another bar carries is not dropped
    and raises nothing: when [get_stock_data] returns a frame, the row of that
    bar is in the frame and its cell in the column of that field is
    missing. *)
Theorem get_stock_data_missing_field
        (requests_get : string -> pydict string -> outcome payload)
        (to_datetime : string -> option Z) (to_numeric : string -> option fval)
        (api_key symbol : string) (data : payload) (rows : pydict (pydict string))
        (log log' : list st_event) (df : DataFrame)
        (k : string) (row : pydict string) (g sg : string)
        (k2 : string) (row2 : pydict string) (f sf : string) :
  (forall url params, requests_get url params = Ret data) ->
  dict_get series_key data = Some (Series rows) ->
  get_stock_data requests_get to_datetime to_numeric api_key symbol log = (Ret df, log') ->
  dict_get k rows = Some row ->
  dict_get g row = Some sg ->
  dict_get f row = None ->
  dict_get k2 rows = Some row2 ->
  dict_get f row2 = Some sf ->
  exists t pos col,
    to_datetime k = Some t /\
    nth_error (index df) pos = Some t /\
    getitem df (rename_label column_names f) = Ret col /\
    nth_error col pos = Some NaN.
Proof.
  intros Hreq Hkey Hrun Hrow Hg Hf Hrow2 Hf2.
  destruct (from_dict_field rows k row g sg Hrow Hg) as (Hk & _).
  destruct (from_dict_field rows k2 row2 f sf Hrow2 Hf2) as (_ & Hname).
  destruct (get_stock_data_cell_at _ _ _ _ _ data rows log log' df k f
              Hreq Hkey Hrun Hk Hname) as (t & pos & col & Et & Hidx & Hcol & Hcell).
  rewrite Hrow, Hf in Hcell.
  exists t, pos, col. repeat split; assumption.
Qed.

(** * The further properties at concrete inputs *)

Lemma indicators_warmup_witness :
  getitem (close_frame sample_closes) "Close" = Ret (map Fin sample_closes) /\
  exists sma rsi,
    calculate_sma (close_frame sample_closes) 3 = Ret sma /\
    calculate_rsi (close_frame sample_closes) 3 = Ret rsi /\
    nth 1 sma NaN = NaN /\ nth 1 rsi NaN = NaN.
Proof.
  assert (H1 : getitem (close_frame sample_closes) "Close" = Ret (map Fin sample_closes))
    by reflexivity.
  split; [exact H1|].
  destruct (indicators_warmup _ _ 3 1 H1) as (sma & rsi & A & B & _ & _ & C).
  exists sma, rsi. split; [exact A|]. split; [exact B|].
  apply C. lia.
Defined.

Lemma calculate_indicators_shape_witness :
  getitem frame_two_points "Close" = Ret [Fin 100; Fin 110] /\
  exists data',
    calculate_indicators frame_two_points 20 50 [] = (Ret data', []) /\
    index data' = index frame_two_points /\
    getitem data' "RSI" = calculate_rsi frame_two_points rsi_default_window.
Proof.
  assert (H1 : getitem frame_two_points "Close" = Ret [Fin 100; Fin 110]) by reflexivity.
  split; [exact H1|].
  destruct (calculate_indicators_shape frame_two_points 20 50 _ [] H1)
    as (data' & A & B & _ & _ & C & _).
  exists data'. split; [exact A|]. split; [exact B|exact C].
Defined.





Lemma latest_metrics_skips_missing_witness :
  getitem gappy_frame "High" = Ret (map cell_of [Some 6; None; Some 8]) /\
  getitem gappy_frame "Low" = Ret (map cell_of [None; None; None]) /\
  (2 <= length (index gappy_frame))%nat /\
  exists last_price day_high day_low,
    latest_metrics "X" gappy_frame [] =
      (Ret tt, [last_price; StMetric "Day High" (cell_of day_high) None;
                StMetric "Day Low" (cell_of day_low) None]) /\
    day_low = None.
Proof.
  assert (H1 : getitem gappy_frame "Close" = Ret (map Fin [5; 0; 7])) by reflexivity.
  assert (H2 : getitem gappy_frame "High" = Ret (map cell_of [Some 6; None; Some 8]))
    by reflexivity.
  assert (H3 : getitem gappy_frame "Low" = Ret (map cell_of [None; None; None]))
    by reflexivity.
  assert (H4 : (2 <= length (index gappy_frame))%nat) by (simpl; lia).
  split; [exact H2|]. split; [exact H3|]. split; [exact H4|].
  destruct (latest_metrics_skips_missing "X" gappy_frame _ _ _ [] H1 H2 H3 H4)
    as (m1 & hi & lo & Hrun & _ & _ & Hlo & _).
  exists m1, hi, lo. split; [exact Hrun|].
  apply Hlo. intros x Hin. simpl in Hin.
  destruct Hin as [E|[E|[E|[]]]]; discriminate E.
Defined.

Lemma get_stock_data_request_failed_witness :
  text_api_key demo_inputs <> EmptyString /\
  dashboard (refuse "timed out") iso_to_datetime decimal_to_numeric demo_inputs [] =
    (Ret tt, [StError "API request failed: timed out";
              StInfo "Waiting for valid API key and symbol..."]).
Proof.
  assert (H1 : text_api_key demo_inputs <> EmptyString) by discriminate.
  assert (H2 : forall url params,
             refuse "timed out" url params = Raise (RequestException "timed out"))
    by reflexivity.
  split; [exact H1|].
  exact (proj2 (get_stock_data_request_failed (refuse "timed out") iso_to_datetime
                  decimal_to_numeric demo_inputs "timed out" H1 H2)).
Defined.

Lemma dashboard_no_api_key_witness :
  text_api_key no_key_inputs = EmptyString /\
  dashboard (serve payload_two_points) iso_to_datetime decimal_to_numeric
            no_key_inputs [] =
    (Raise StopException,
     [StWarning "Please enter your Alpha Vantage API key in the sidebar to start."]).
Proof.
  assert (H1 : text_api_key no_key_inputs = EmptyString) by reflexivity.
  split; [exact H1|].
  exact (dashboard_no_api_key (serve payload_two_points) iso_to_datetime
           decimal_to_numeric no_key_inputs [] H1).
Defined.


Lemma get_stock_data_frame_shape_witness :
  get_stock_data (serve payload_extra_field) iso_to_datetime decimal_to_numeric
                 "demo" "MSFT" [] = (Ret frame_extra_field, []) /\
  rectangular frame_extra_field /\
  NoDup (columns frame_extra_field) /\
  StronglySorted Z.le (index frame_extra_field).
Proof.
  assert (H1 : get_stock_data (serve payload_extra_field) iso_to_datetime
                 decimal_to_numeric "demo" "MSFT" [] = (Ret frame_extra_field, []))
    by (vm_compute; reflexivity).
  split; [exact H1|].
  exact (get_stock_data_frame_shape _ _ _ _ _ _ _ _ H1).
Defined.

Lemma get_stock_data_cell_witness :
  get_stock_data (serve payload_two_points) iso_to_datetime decimal_to_numeric
                 "demo" "MSFT" [] = (Ret frame_two_points, []) /\
  dict_get "2024-01-02 09:35:00" rows_two_points
    = Some (bar "100.5" "111.0" "100.0" "110" "1200") /\
  dict_get "4. close" (bar "100.5" "111.0" "100.0" "110" "1200") = Some "110"%string /\
  exists t x pos col,
    iso_to_datetime "2024-01-02 09:35:00" = Some t /\
    decimal_to_numeric "110" = Some x /\
    nth_error (index frame_two_points) pos = Some t /\
    getitem frame_two_points "Close" = Ret col /\
    nth_error col pos = Some x.
Proof.
  assert (H1 : forall url params,
             serve payload_two_points url params = Ret payload_two_points)
    by reflexivity.
  assert (H2 : dict_get series_key payload_two_points = Some (Series rows_two_points))
    by reflexivity.
  assert (H3 : get_stock_data (serve payload_two_points) iso_to_datetime
                 decimal_to_numeric "demo" "MSFT" [] = (Ret frame_two_points, []))
    by (vm_compute; reflexivity).
  assert (H4 : dict_get "2024-01-02 09:35:00" rows_two_points
               = Some (bar "100.5" "111.0" "100.0" "110" "1200")) by reflexivity.
  assert (H5 : dict_get "4. close" (bar "100.5" "111.0" "100.0" "110" "1200")
               = Some "110"%string) by reflexivity.
  split; [exact H3|]. split; [exact H4|]. split; [exact H5|].
  exact (get_stock_data_cell (serve payload_two_points) iso_to_datetime
           decimal_to_numeric "demo" "MSFT" payload_two_points rows_two_points [] []
           frame_two_points _ _ "4. close" "110" H1 H2 H3 H4 H5).
Defined.


Lemma dashboard_missing_close_witness :
  text_api_key demo_inputs <> EmptyString /\
  get_stock_data (serve payload_no_close) iso_to_datetime decimal_to_numeric
                 (text_api_key demo_inputs) (upper (text_symbol demo_inputs)) []
    = (Ret frame_no_close, []) /\
  dashboard (serve payload_no_close) iso_to_datetime decimal_to_numeric demo_inputs []
    = (Raise KeyError, []).
Proof.
  assert (H1 : text_api_key demo_inputs <> EmptyString) by discriminate.
  assert (H2 : get_stock_data (serve payload_no_close) iso_to_datetime
                 decimal_to_numeric (text_api_key demo_inputs)
                 (upper (text_symbol demo_inputs)) [] = (Ret frame_no_close, []))
    by (vm_compute; reflexivity).
  assert (H3 : empty frame_no_close = false) by reflexivity.
  assert (H4 : getitem frame_no_close "Close" = Raise KeyError) by reflexivity.
  split; [exact H1|]. split; [exact H2|].
  exact (proj2 (dashboard_missing_close _ _ _ demo_inputs frame_no_close []
                  H1 H2 H3 H4)).
Defined.


Lemma indicators_no_lookahead_witness :
  getitem (close_frame early_closes) "Close" = Ret (map Fin early_closes) /\
  getitem (close_frame sample_closes) "Close" = Ret (map Fin early_closes ++ map Fin late_closes) /\
  exists sma sma',
    calculate_sma (close_frame early_closes) 2 = Ret sma /\
    calculate_sma (close_frame sample_closes) 2 = Ret sma' /\
    nth 2 sma' NaN = nth 2 sma NaN.
Proof.
  assert (H1 : getitem (close_frame early_closes) "Close" = Ret (map Fin early_closes))
    by reflexivity.
  assert (H2 : getitem (close_frame sample_closes) "Close"
               = Ret (map Fin early_closes ++ map Fin late_closes)) by reflexivity.
  assert (H3 : (2 < length (map Fin early_closes))%nat) by (simpl; lia).
  split; [exact H1|]. split; [exact H2|].
  destruct (indicators_no_lookahead _ _ _ _ 2 2 H1 H2 H3)
    as (sma & sma' & _ & _ & A & B & _ & _ & C & _).
  exists sma, sma'. split; [exact A|]. split; [exact B|exact C].
Defined.

Lemma get_stock_data_missing_field_witness :
  get_stock_data (serve payload_extra_field) iso_to_datetime decimal_to_numeric
                 "demo" "MSFT" [] = (Ret frame_extra_field, []) /\
  dict_get "6. vwap" (bar "99.0" "101.5" "98.25" "100" "900") = None /\
  exists t pos col,
    iso_to_datetime "2024-01-02 09:30:00" = Some t /\
    nth_error (index frame_extra_field) pos = Some t /\
    getitem frame_extra_field "6. vwap" = Ret col /\
    nth_error col pos = Some NaN.
Proof.
  assert (H1 : forall url params,
             serve payload_extra_field url params = Ret payload_extra_field)
    by reflexivity.
  assert (H2 : dict_get series_key payload_extra_field = Some (Series rows_extra_field))
    by reflexivity.
  assert (H3 : get_stock_data (serve payload_extra_field) iso_to_datetime
                 decimal_to_numeric "demo" "MSFT" [] = (Ret frame_extra_field, []))
    by (vm_compute; reflexivity).
  assert (H4 : dict_get "2024-01-02 09:30:00" rows_extra_field
               = Some (bar "99.0" "101.5" "98.25" "100" "900")) by reflexivity.
  assert (H5 : dict_get "4. close" (bar "99.0" "101.5" "98.25" "100" "900")
               = Some "100"%string) by reflexivity.
  assert (H6 : dict_get "6. vwap" (bar "99.0" "101.5" "98.25" "100" "900") = None)
    by reflexivity.
  assert (H7 : dict_get "2024-01-02 09:35:00" rows_extra_field
               = Some bar_with_vwap) by reflexivity.
  assert (H8 : dict_get "6. vwap" bar_with_vwap = Some "105.5"%string) by reflexivity.
  split; [exact H3|]. split; [exact H6|].
  exact (get_stock_data_missing_field (serve payload_extra_field) iso_to_datetime
           decimal_to_numeric "demo" "MSFT" payload_extra_field rows_extra_field [] []
           frame_extra_field _ _ "4. close" "100" _ _ "6. vwap" "105.5"
           H1 H2 H3 H4 H5 H6 H7 H8).
Defined.
